(** * StorageW: the cookie codec and its query layer

  A shallow embedding of the [Cookies] class of StorageW (the revision with
  the [type] tag, [storeArray], [firstIn] and the [cookieType] argument of
  [unravel]), and the properties its specification states about it.

  - [JsString]: the string methods the class calls ([trim], [split],
    [indexOf], [substring]).
  - [Js]: the values the class inspects with [typeof] and [Object.hasOwn],
    exceptions, and the browser state it reads and writes.
  - [Cookies]: the methods themselves, one definition per method.
  - [Legacy]: [all] and [unravel] as the earlier revision has them.
  - [Spec]: the words of the specification, as definitions.

  A character is a UTF-16 code unit below 256, so a string is a [string] of
  the standard library.  [document.cookie] is the flat store of the
  specification: reading gives the whole string, assigning replaces it. *)

From Stdlib Require Import String Ascii List ZArith Lia Bool Arith.
Import ListNotations.
Open Scope string_scope.
Set Warnings "-register-all".

(* ================================================================== *)
(** ** Strings *)

Module JsString.

(** White space as [String.prototype.trim] sees it, below code unit 256:
    TAB, LF, VT, FF, CR, SP and NBSP. *)
Definition is_whitespace (c : ascii) : bool :=
  match N_of_ascii c with
  | 9%N | 10%N | 11%N | 12%N | 13%N | 32%N | 160%N => true
  | _ => false
  end.

Fixpoint trimStart (s : string) : string :=
  match s with
  | EmptyString => EmptyString
  | String c r => if is_whitespace c then trimStart r else s
  end.

Fixpoint trimEnd (s : string) : string :=
  match s with
  | EmptyString => EmptyString
  | String c r =>
      match trimEnd r with
      | EmptyString => if is_whitespace c then EmptyString else String c EmptyString
      | t => String c t
      end
  end.

(** [s.trim()] *)
Definition trim (s : string) : string := trimEnd (trimStart s).

(** [s.split(sep)] for a separator of one character: the pieces between the
    separators, in order; never the empty array. *)
Fixpoint split (sep : ascii) (s : string) : list string :=
  match s with
  | EmptyString => [EmptyString]
  | String c r =>
      if Ascii.eqb c sep then EmptyString :: split sep r
      else match split sep r with
           | h :: t => String c h :: t
           | [] => [String c EmptyString]
           end
  end.

(** [s.indexOf(c)]: the position of the first [c], or -1. *)
Fixpoint indexOf (c : ascii) (s : string) : Z :=
  match s with
  | EmptyString => (-1)%Z
  | String a r =>
      if Ascii.eqb a c then 0%Z
      else let k := indexOf c r in
           if (k =? -1)%Z then (-1)%Z else (k + 1)%Z
  end.

Fixpoint drop (n : nat) (s : string) : string :=
  match n, s with
  | O, _ => s
  | S _, EmptyString => EmptyString
  | S n', String _ r => drop n' r
  end.

(** [s.substring(start)]: a negative start counts as 0 ([Z.to_nat] does
    that), a start beyond the end gives the empty string. *)
Definition substring (start : Z) (s : string) : string :=
  drop (Z.to_nat start) s.

(** Number of occurrences of a character; used to state properties. *)
Fixpoint count (c : ascii) (s : string) : nat :=
  match s with
  | EmptyString => 0
  | String a r => (if Ascii.eqb a c then 1 else 0) + count c r
  end.

(** The pieces put back together with a separator between them. *)
Fixpoint join (sep : string) (l : list string) : string :=
  match l with
  | [] => EmptyString
  | [x] => x
  | x :: r => x ++ sep ++ join sep r
  end.

(** The text before the first [c] (everything when there is none) and the
    text after it (nothing when there is none). *)
Fixpoint before (c : ascii) (s : string) : string :=
  match s with
  | EmptyString => EmptyString
  | String a r => if Ascii.eqb a c then EmptyString else String a (before c r)
  end.

Fixpoint after (c : ascii) (s : string) : string :=
  match s with
  | EmptyString => EmptyString
  | String a r => if Ascii.eqb a c then r else after c r
  end.

End JsString.

(* ================================================================== *)
(** ** Values, exceptions and the browser *)

Module Js.

(** The values a caller can hand to the class.  A number is integer valued;
    a [RegExp] carries no [g] or [y] flag, so that its [test] is a
    function of the tested string alone. *)
Inductive Value : Type :=
| VUndefined
| VNull
| VBool (b : bool)
| VNum (n : Z)
| VStr (s : string)
| VArr (elems : list Value)
| VObj (props : list (string * Value))
| VRegExp (test : string -> bool).

Inductive Error : Type :=
| TypeError
| ReferenceError (name : string)
| SyntaxError.

(** What evaluating an expression gives: a value, or a thrown exception. *)
Inductive Outcome (A : Type) : Type :=
| Ok (a : A)
| Thrown (e : Error).
Arguments Ok {A} a.
Arguments Thrown {A} e.

Definition obind {A B} (m : Outcome A) (k : A -> Outcome B) : Outcome B :=
  match m with
  | Ok a => k a
  | Thrown e => Thrown e
  end.

(** [try { body } catch (e) { handler }] *)
Definition try_catch {A} (body : Outcome A) (handler : Error -> Outcome A)
  : Outcome A :=
  match body with
  | Ok a => Ok a
  | Thrown e => handler e
  end.

Declare Scope outcome_scope.
Delimit Scope outcome_scope with outcome.
Bind Scope outcome_scope with Outcome.
Notation "x <- e ;; k" := (obind e (fun x => k))
  (at level 61, e at next level, right associativity) : outcome_scope.

(** [a && b] on tests that may throw: [b] counts only when [a] is true, and
    an exception of [a] is the exception of the whole. *)
Definition and_then (a b : Outcome bool) : Outcome bool :=
  match a with
  | Ok true => b
  | Ok false => Ok false
  | Thrown e => Thrown e
  end.

Notation "a &&& b" := (and_then a b)
  (at level 40, left associativity) : outcome_scope.

Definition typeof (v : Value) : string :=
  match v with
  | VUndefined => "undefined"
  | VNull => "object"
  | VBool _ => "boolean"
  | VNum _ => "number"
  | VStr _ => "string"
  | VArr _ | VObj _ | VRegExp _ => "object"
  end.

Fixpoint own (k : string) (props : list (string * Value)) : option Value :=
  match props with
  | [] => None
  | (k', v) :: r => if String.eqb k' k then Some v else own k r
  end.

(** [Object.hasOwn(o, k)] for the keys the class asks about, ['id'] and
    ['value'], which no string, array, number, boolean or RegExp owns.
    [null] and [undefined] have no object to ask: TypeError. *)
Definition Object_hasOwn (o : Value) (k : string) : Outcome bool :=
  match o with
  | VUndefined | VNull => Thrown TypeError
  | VObj props => Ok (match own k props with Some _ => true | None => false end)
  | _ => Ok false
  end.

(** [o[k]] and [o.k], again for the keys ['id'], ['type'] and ['value']. *)
Definition get (o : Value) (k : string) : Outcome Value :=
  match o with
  | VUndefined | VNull => Thrown TypeError
  | VObj props => Ok (match own k props with Some v => v | None => VUndefined end)
  | _ => Ok VUndefined
  end.

(** Truthiness. *)
Definition ToBoolean (v : Value) : bool :=
  match v with
  | VUndefined | VNull => false
  | VBool b => b
  | VNum n => negb (n =? 0)%Z
  | VStr s => negb (s =? "")
  | VArr _ | VObj _ | VRegExp _ => true
  end.

(** [v === 'literal'] *)
Definition is_string (v : Value) (literal : string) : bool :=
  match v with
  | VStr s => String.eqb s literal
  | _ => false
  end.

(** [Array.prototype.every]: stops at the first falsy answer. *)
Fixpoint Array_every (cb : Value -> Outcome Value) (l : list Value) : Outcome bool :=
  match l with
  | [] => Ok true
  | x :: r => (t <- cb x ;; if ToBoolean t then Array_every cb r else Ok false)%outcome
  end.

(** [Array.prototype.filter] *)
Fixpoint Array_filter (cb : Value -> Outcome bool) (l : list Value)
  : Outcome (list Value) :=
  match l with
  | [] => Ok []
  | x :: r => (t <- cb x ;; rest <- Array_filter cb r ;;
               Ok (if t then x :: rest else rest))%outcome
  end.

(** [Array.prototype.map] *)
Fixpoint Array_map (cb : Value -> Outcome Value) (l : list Value)
  : Outcome (list Value) :=
  match l with
  | [] => Ok []
  | x :: r => (y <- cb x ;; rest <- Array_map cb r ;; Ok (y :: rest))%outcome
  end.

(** [Array.isArray(v)], and the elements of [v] when it is an array. *)
Definition Array_isArray (v : Value) : bool :=
  match v with
  | VArr _ => true
  | _ => false
  end.

Definition elements (v : Value) : list Value :=
  match v with
  | VArr l => l
  | _ => []
  end.

(** [[n1, ..., nk].includes(v)] for an array of numbers. *)
Definition Array_includes (l : list Z) (v : Value) : bool :=
  match v with
  | VNum n => existsb (Z.eqb n) l
  | _ => false
  end.

(** Resolving an identifier against the bindings in scope. *)
Definition identifier (scope : list (string * Value)) (name : string)
  : Outcome Value :=
  match own name scope with
  | Some v => Ok v
  | None => Thrown (ReferenceError name)
  end.

(** What [console.error] is called with. *)
Inductive Message : Type :=
| CookiesDisabled
| CountMismatch (tried added : nat)
| StringifyFailed (index : nat)
| BadCookieType.

(** The ambient state: [navigator.cookieEnabled], [document.cookie] and
    the messages sent to the console, oldest first. *)
Record Browser : Type := mkBrowser {
  cookieEnabled : bool;
  cookie : string;
  console : list Message
}.

Definition Run (A : Type) : Type := Browser -> Outcome A * Browser.

Definition ret {A} (a : A) : Run A := fun b => (Ok a, b).

Definition bind {A B} (m : Run A) (k : A -> Run B) : Run B :=
  fun b => match m b with
           | (Ok a, b') => k a b'
           | (Thrown e, b') => (Thrown e, b')
           end.

Definition lift {A} (o : Outcome A) : Run A := fun b => (o, b).

Definition navigator_cookieEnabled : Run bool :=
  fun b => (Ok (cookieEnabled b), b).

Definition document_cookie : Run string :=
  fun b => (Ok (cookie b), b).

Definition set_document_cookie (s : string) : Run unit :=
  fun b => (Ok tt, mkBrowser (cookieEnabled b) s (console b)).

Definition console_error (m : Message) : Run unit :=
  fun b => (Ok tt, mkBrowser (cookieEnabled b) (cookie b) (console b ++ [m])).

Declare Scope run_scope.
Delimit Scope run_scope with run.
Bind Scope run_scope with Run.
Notation "x <- e ;; k" := (bind e (fun x => k))
  (at level 61, e at next level, right associativity) : run_scope.
Notation "e ;; k" := (bind e (fun _ => k))
  (at level 61, right associativity) : run_scope.

(** [Array.prototype.forEach] with a callback that updates local variables
    (the accumulator) and may touch the browser. *)
Fixpoint Array_forEach {Acc} (cb : Acc -> nat -> Value -> Run Acc)
  (index : nat) (l : list Value) (acc : Acc) : Run Acc :=
  match l with
  | [] => ret acc
  | x :: r => (acc' <- cb acc index x ;; Array_forEach cb (S index) r acc')%run
  end.

(** The built-ins whose behaviour the class relies on without fixing it:
    [JSON.parse], [JSON.stringify], and the conversion to string of a
    value that is not a string already. *)
Class Host : Type := {
  JSON_parse : Value -> Outcome Value;
  JSON_stringify : Value -> Outcome Value;
  ToString_other : Value -> string
}.

Definition ToString `{Host} (v : Value) : string :=
  match v with
  | VStr s => s
  | _ => ToString_other v
  end.

End Js.

(* ================================================================== *)
(** ** The class [Cookies] *)

Module Cookies.
Import JsString Js.

Section Methods.
Context `{Host}.

(** The object literal [{ id: ..., type: ..., value: ... }]. *)
Definition entry (id : Value) (type : string) (value : Value) : Value :=
  VObj [("id", id); ("type", VStr type); ("value", value)].

(** The callback of the [map] of [all].  [cookie.split('=')[0]] is the
    first piece, which [split] always has. *)
Definition all_entry (cookie : string) : Value :=
  let id := trim (hd "" (split "=" cookie)) in
  let value := trim (substring (indexOf "=" cookie + 1) cookie) in
  entry (VStr id) "string" (VStr value).

(** [Cookies.all()] *)
Definition all : Run (list Value) :=
  (enabled <- navigator_cookieEnabled ;;
   if negb enabled then
     console_error CookiesDisabled ;;
     ret []
   else
     cookies <- document_cookie ;;
     if trim cookies =? "" then ret []
     else ret (List.map all_entry (split ";" cookies)))%run.

(** The three query branches of [first] and [firstIn], which are the same
    text in both.  The tests are on the type of [query], so at most one
    branch applies; a branch that does not return falls through to the
    final [return null]. *)
Definition first_of (cookies : list Value) (query : Value) : Outcome Value :=
  let length := Z.of_nat (List.length cookies) in
  match query with
  | VNum q =>
      if ((0 <=? q) && (q <? length))%Z then
        Ok (nth (Z.to_nat q) cookies VUndefined)
      else if ((q <? 0) && (- length <? q))%Z then
        Ok (nth (Z.to_nat (length + q)) cookies VUndefined)
      else Ok VNull
  | VStr q =>
      (filteredCookies <-
         Array_filter (fun item => id <- get item "id" ;; Ok (is_string id q))
                      cookies ;;
       Ok (hd VNull filteredCookies))%outcome
  | VRegExp test =>
      (filteredCookies <-
         Array_filter (fun item => id <- get item "id" ;; Ok (test (ToString id)))
                      cookies ;;
       Ok (hd VNull filteredCookies))%outcome
  | _ => Ok VNull
  end.

(** The same for [find] and [findIn], which answer with an array. *)
Definition find_of (cookies : list Value) (query : Value) : Outcome Value :=
  let length := Z.of_nat (List.length cookies) in
  match query with
  | VNum q =>
      if ((0 <=? q) && (q <? length))%Z then
        Ok (VArr [nth (Z.to_nat q) cookies VUndefined])
      else if ((q <? 0) && (- length <? q))%Z then
        Ok (VArr [nth (Z.to_nat (length + q)) cookies VUndefined])
      else Ok VNull
  | VStr q =>
      (filteredCookies <-
         Array_filter (fun item => id <- get item "id" ;; Ok (is_string id q))
                      cookies ;;
       Ok (match filteredCookies with [] => VNull | _ => VArr filteredCookies end))%outcome
  | VRegExp test =>
      (filteredCookies <-
         Array_filter (fun item => id <- get item "id" ;; Ok (test (ToString id)))
                      cookies ;;
       Ok (match filteredCookies with [] => VNull | _ => VArr filteredCookies end))%outcome
  | _ => Ok VNull
  end.

(** [Cookies.first(query)] *)
Definition first (query : Value) : Run Value :=
  (cookies <- all ;;
   if negb (List.length cookies =? 0)%nat then lift (first_of cookies query)
   else ret VNull)%run.

(** [Cookies.find(query)] *)
Definition find (query : Value) : Run Value :=
  (cookies <- all ;;
   if negb (List.length cookies =? 0)%nat then lift (find_of cookies query)
   else ret VNull)%run.

(** The test inside the [every] of [firstIn] and [findIn]. *)
Definition entry_shape (cookie : Value) : Outcome bool :=
  (Ok (typeof cookie =? "object")
   &&& Object_hasOwn cookie "id"
   &&& Object_hasOwn cookie "value"
   &&& (id <- get cookie "id" ;; Ok (typeof id =? "string"))
   &&& (value <- get cookie "value" ;;
        Ok ((typeof value =? "string") || (typeof value =? "object"))))%outcome.

(** The callback of that [every]: a block body [{ test }] that evaluates
    the test as an expression statement and has no [return]. *)
Definition entry_shape_callback (cookie : Value) : Outcome Value :=
  (_ <- entry_shape cookie ;; Ok VUndefined)%outcome.

(** [Cookies.firstIn(cookies, query)] *)
Definition firstIn (cookies query : Value) : Outcome Value :=
  (ok <- Ok (Array_isArray cookies)
         &&& Ok (negb (List.length (elements cookies) =? 0)%nat)
         &&& Array_every entry_shape_callback (elements cookies) ;;
   if ok then first_of (elements cookies) query else Ok VNull)%outcome.

(** [Cookies.findIn(cookies, query)] *)
Definition findIn (cookies query : Value) : Outcome Value :=
  (ok <- Ok (Array_isArray cookies)
         &&& Ok (negb (List.length (elements cookies) =? 0)%nat)
         &&& Array_every entry_shape_callback (elements cookies) ;;
   if ok then find_of (elements cookies) query else Ok VNull)%outcome.

(** The test of [store], of the [every] of [storeArray] and of the inner
    [every] of [storeAsContainer]: an object owning a string [id] and a
    string [value]. *)
Definition scalar_shape (item : Value) : Outcome bool :=
  (Ok (typeof item =? "object")
   &&& Object_hasOwn item "id"
   &&& Object_hasOwn item "value"
   &&& (id <- get item "id" ;; Ok (typeof id =? "string"))
   &&& (value <- get item "value" ;; Ok (typeof value =? "string")))%outcome.

Definition scalar_shape_callback (item : Value) : Outcome Value :=
  (t <- scalar_shape item ;; Ok (VBool t))%outcome.

(** The template literal [`${x.id}=${x.value}`]. *)
Definition id_equals_value (x : Value) : Outcome string :=
  (id <- get x "id" ;;
   value <- get x "value" ;;
   Ok (ToString id ++ "=" ++ ToString value))%outcome.

(** [Cookies.store(item)] *)
Definition store (item : Value) : Run Value :=
  (ok <- lift (scalar_shape item) ;;
   if ok then
     cookies <- document_cookie ;;
     addedCookie <- lift (id_equals_value item) ;;
     let cookies :=
       if trim cookies =? "" then cookies ++ addedCookie
       else cookies ++ ";" ++ addedCookie in
     set_document_cookie cookies ;;
     ret (VBool true)
   else ret (VBool false))%run.

(** The body of the [forEach] of [storeArray].  The local variables it
    updates, [numberOfAddedCookies] and [cookies], are the accumulator. *)
Definition storeArray_step (acc : nat * string) (index : nat) (item : Value)
  : Run (nat * string) :=
  let (numberOfAddedCookies, cookies) := acc in
  (addedCookie <- lift (id_equals_value item) ;;
   ret (numberOfAddedCookies + 1,
        if trim cookies =? "" then addedCookie
        else cookies ++ ";" ++ addedCookie))%run.

(** [Cookies.storeArray(items)] *)
Definition storeArray (items : Value) : Run Value :=
  (ok <- lift (Ok (typeof items =? "object")
               &&& Ok (Array_isArray items)
               &&& Ok (0 <? List.length (elements items))%nat
               &&& Array_every scalar_shape_callback (elements items)) ;;
   if ok then
     let numberOfItems := List.length (elements items) in
     cookies <- document_cookie ;;
     acc <- Array_forEach storeArray_step 0 (elements items) (0, cookies) ;;
     let (numberOfAddedCookies, cookies) := acc in
     if (numberOfItems =? numberOfAddedCookies)%nat then
       set_document_cookie cookies ;;
       ret (VBool true)
     else
       console_error (CountMismatch numberOfItems numberOfAddedCookies) ;;
       ret (VBool false)
   else
     console_error (CountMismatch 0 0) ;;
     ret (VBool false))%run.

(** The body of the [forEach] of [storeAsContainer]. *)
Definition storeAsContainer_step (acc : nat * string) (index : nat)
  (subCookie : Value) : Run (nat * string) :=
  let (numberOfAddedSubCookies, subCookieString) := acc in
  (addedSubCookie <- lift (id_equals_value subCookie) ;;
   ret (numberOfAddedSubCookies + 1,
        if trim subCookieString =? "" then addedSubCookie
        else subCookieString ++ "&" ++ addedSubCookie))%run.

(** [Cookies.storeAsContainer(item)] *)
Definition storeAsContainer (item : Value) : Run Value :=
  (ok <- lift (Ok (typeof item =? "object")
               &&& Object_hasOwn item "id"
               &&& Object_hasOwn item "value"
               &&& (id <- get item "id" ;; Ok (typeof id =? "string"))
               &&& (value <- get item "value" ;; Ok (typeof value =? "object"))
               &&& (value <- get item "value" ;; Ok (Array_isArray value))
               &&& (value <- get item "value" ;;
                    Ok (0 <? List.length (elements value))%nat)
               &&& (value <- get item "value" ;;
                    Array_every scalar_shape_callback (elements value))) ;;
   if ok then
     cookies <- document_cookie ;;
     value <- lift (get item "value") ;;
     let subCookies := elements value in
     let subCookieCount := List.length subCookies in
     acc <- Array_forEach storeAsContainer_step 0 subCookies (0, "") ;;
     let (numberOfAddedSubCookies, subCookieString) := acc in
     if (subCookieCount =? numberOfAddedSubCookies)%nat then
       id <- lift (get item "id") ;;
       let cookie := ToString id ++ "=" ++ subCookieString in
       set_document_cookie (cookies ++ cookie) ;;
       ret (VBool true)
     else ret (VBool false)
   else ret (VBool false))%run.

(** The test inside the [every] of [storeArrayAsJSON]. *)
Definition json_item_shape (item : Value) : Outcome bool :=
  (Ok (typeof item =? "object")
   &&& Object_hasOwn item "id"
   &&& Object_hasOwn item "value"
   &&& (id <- get item "id" ;; Ok (typeof id =? "string"))
   &&& (value <- get item "value" ;;
        Ok ((typeof value =? "object") || (typeof value =? "string"))))%outcome.

Definition json_item_shape_callback (item : Value) : Outcome Value :=
  (t <- json_item_shape item ;; Ok (VBool t))%outcome.

(** The body of the [forEach] of [storeArrayAsJSON]:
    [try { s = JSON.stringify(item.value) }
     catch (e) { s = item.value; console.error(...) }
     finally { stored = Cookies.store({id: item.id, value: s}); ... }].
    [s] starts [undefined]; the [finally] block runs also when the [catch]
    block throws, and that exception goes on after it. *)
Definition storeArrayAsJSON_step (numberOfAddedCookies index : nat)
  (item : Value) : Run nat :=
  fun b =>
    let attempt := (value <- get item "value" ;; JSON_stringify value)%outcome in
    let '(stringifiedCookie, pending, b1) :=
      match attempt with
      | Ok s => (s, None, b)
      | Thrown _ =>
          match get item "value" with
          | Ok raw => (raw, None, snd (console_error (StringifyFailed index) b))
          | Thrown e => (VUndefined, Some e, b)
          end
      end in
    let finally :=
      (id <- lift (get item "id") ;;
       stored <- store (VObj [("id", id); ("value", stringifiedCookie)]) ;;
       ret (if ToBoolean stored then numberOfAddedCookies + 1
            else numberOfAddedCookies))%run in
    match finally b1, pending with
    | (Ok n, b2), None => (Ok n, b2)
    | (Ok _, b2), Some e => (Thrown e, b2)
    | (Thrown e, b2), _ => (Thrown e, b2)
    end.

(** [Cookies.storeArrayAsJSON(items)] *)
Definition storeArrayAsJSON (items : Value) : Run Value :=
  (ok <- lift (Ok (typeof items =? "object")
               &&& Ok (Array_isArray items)
               &&& Ok (0 <? List.length (elements items))%nat
               &&& Array_every json_item_shape_callback (elements items)) ;;
   counts <-
     (if ok then
        let numberOfItems := List.length (elements items) in
        cookies <- document_cookie ;;
        numberOfAddedCookies <-
          Array_forEach storeArrayAsJSON_step 0 (elements items) 0 ;;
        set_document_cookie cookies ;;
        ret (numberOfItems, numberOfAddedCookies)
      else ret (0, 0)) ;;
   let (numberOfItems, numberOfAddedCookies) := counts : nat * nat in
   if (numberOfItems =? numberOfAddedCookies)%nat then ret (VBool true)
   else
     console_error (CountMismatch numberOfItems numberOfAddedCookies) ;;
     ret (VBool false))%run.

(** The callback of the first [map] of [unravel]:
    [try { let parsedValue = JSON.parse(cookie.value);
           return { id: cookie.id, type: parsedType, value: parsedValue } }
     catch (e) { return cookie }].
    [scope] holds the variables of the enclosing function; the file
    declares [parsedType] nowhere. *)
Definition unravel_json (scope : list (string * Value)) (cookie : Value)
  : Outcome Value :=
  try_catch
    (value <- get cookie "value" ;;
     parsedValue <- JSON_parse value ;;
     id <- get cookie "id" ;;
     type <- identifier (("parsedValue", parsedValue) :: ("cookie", cookie) :: scope)
                        "parsedType" ;;
     Ok (VObj [("id", id); ("type", type); ("value", parsedValue)]))%outcome
    (fun _ => Ok cookie).

(** The sub-cookie built from one [&]-separated piece. *)
Definition subcookie (value : string) : Value :=
  if negb (indexOf "=" value =? -1)%Z then
    entry (VStr (hd "" (split "=" value))) "string"
          (VStr (trim (substring (indexOf "=" value + 1) value)))
  else
    entry (VStr value) "string" (VStr "").

(** The callback of the second [map] of [unravel]. *)
Definition unravel_container (cookie : Value) : Outcome Value :=
  (value <- get cookie "value" ;;
   match value with
   | VStr s =>
       if negb (indexOf "=" s =? -1)%Z
          && negb (indexOf "&" s =? -1)%Z
          && forallb (fun i => (List.length (split "=" i) =? 2)%nat) (split "&" s)
       then
         id <- get cookie "id" ;;
         Ok (VObj [("id", id); ("type", VStr "container");
                   ("value", VArr (List.map subcookie (split "&" s)))])
       else Ok cookie
   | _ => Ok cookie
   end)%outcome.

(** [Cookies.unravel(cookieType = 'all')].  In the array literal
    [['all'|'none'|'json'|'container']] the operator is the bitwise or, each
    operand converts to 0, and the array is [[0]]. *)
Definition unravel (cookieType : Value) : Run Value :=
  let cookieType :=
    match cookieType with
    | VUndefined => VStr "all"
    | v => v
    end in
  (cookies <- all ;;
   if negb (typeof cookieType =? "string")
      && negb (Array_includes [Z.lor (Z.lor (Z.lor 0 0) 0) 0] cookieType)
   then
     console_error BadCookieType ;;
     ret VUndefined
   else
     let scope := [("checkedCookies", VArr cookies); ("cookies", VArr cookies);
                   ("cookieType", cookieType)] in
     checkedCookies <-
       (if negb (is_string cookieType "string")
           && negb (is_string cookieType "container")
        then lift (Array_map (unravel_json scope) cookies)
        else ret cookies) ;;
     checkedCookies <-
       (if negb (is_string cookieType "string")
           && negb (is_string cookieType "json")
        then lift (Array_map unravel_container checkedCookies)
        else ret checkedCookies) ;;
     ret (VArr checkedCookies))%run.

End Methods.
End Cookies.

(* ================================================================== *)
(** ** The earlier revision of the class

    [StorageW.js] holds the revision of [Cookies] before the [type] tag.
    Its [first] is the [first] above; its [all] and [unravel] differ. *)

Module Legacy.
Import JsString Js.

Section Methods.
Context `{Host}.

(** The callback of the [map] of [all]: [{ id: id, value: value }]. *)
Definition all_entry (cookie : string) : Value :=
  let id := trim (hd "" (split "=" cookie)) in
  let value := trim (substring (indexOf "=" cookie + 1) cookie) in
  VObj [("id", VStr id); ("value", VStr value)].

(** [Cookies.all()] *)
Definition all : Run (list Value) :=
  (enabled <- navigator_cookieEnabled ;;
   if negb enabled then
     console_error CookiesDisabled ;;
     ret []
   else
     cookies <- document_cookie ;;
     if trim cookies =? "" then ret []
     else ret (List.map all_entry (split ";" cookies)))%run.

(** The callback of the [map] of [unravel]:
    [try { let parsedValue = JSON.parse(cookie.value);
           return { id: cookie.id, value: parsedValue } }
     catch (e) { return cookie }]. *)
Definition unravel_json (cookie : Value) : Outcome Value :=
  try_catch
    (value <- get cookie "value" ;;
     parsedValue <- JSON_parse value ;;
     id <- get cookie "id" ;;
     Ok (VObj [("id", id); ("value", parsedValue)]))%outcome
    (fun _ => Ok cookie).

(** [Cookies.unravel()] *)
Definition unravel : Run Value :=
  (cookies <- all ;;
   checkedCookies <- lift (Array_map unravel_json cookies) ;;
   ret (VArr checkedCookies))%run.

End Methods.
End Legacy.

(* ================================================================== *)
(** ** The vocabulary of the specification *)

Module Spec.
Import JsString Js Cookies.

(** A Scalar entry with the given id and value, as decode emits it. *)
Definition scalar (e : string * string) : Value :=
  entry (VStr (fst e)) "string" (VStr (snd e)).

(** The flat text [id=value] of an entry. *)
Definition text (e : string * string) : string := fst e ++ "=" ++ snd e.

(** Drawn from characters excluding [;] and [=]. *)
Definition free_of_delimiters (s : string) : Prop :=
  count ";" s = 0 /\ count "=" s = 0.

(** Without white space at either end. *)
Definition trimmed (s : string) : Prop := trim s = s.

(** Scalar-shaped: an object with a string [id] and a string [value]; the
    two strings when it is, [None] when it is not. *)
Definition scalar_fields (item : Value) : option (string * string) :=
  match item with
  | VObj props =>
      match own "id" props, own "value" props with
      | Some (VStr i), Some (VStr v) => Some (i, v)
      | _, _ => None
      end
  | _ => None
  end.

Definition text_of (item : Value) : string :=
  match scalar_fields item with
  | Some e => text e
  | None => ""
  end.

(** The flat content after appending the given texts in order: each one
    follows a [;] unless nothing but white space comes before it, and that
    white space is dropped. *)
Definition appended (old : string) (texts : list string) : string :=
  match texts with
  | [] => old
  | _ => if trim old =? "" then join ";" texts else old ++ ";" ++ join ";" texts
  end.

(** What the loop of [storeArray] or [storeAsContainer] leaves in its
    string variable: each text replaces a blank string and follows the
    separator otherwise. *)
Definition packed (sep : string) (start : string) (texts : list string) : string :=
  fold_left (fun s t => if trim s =? "" then t else s ++ sep ++ t) texts start.

(** A value qualifies as a container: at least one [&], and exactly one [=]
    in every [&]-delimited segment. *)
Definition qualifies (s : string) : bool :=
  (1 <=? count "&" s)%nat
  && forallb (fun segment => (count "=" segment =? 1)%nat) (split "&" s).

(** The sub-entry of a segment split on its first [=], and the same with
    the value trimmed. *)
Definition split_on_first_equals (segment : string) : Value :=
  entry (VStr (before "=" segment)) "string" (VStr (after "=" segment)).

Definition split_and_trimmed (segment : string) : Value :=
  entry (VStr (before "=" segment)) "string" (VStr (trim (after "=" segment))).

(** An item [storeArrayAsJSON] accepts: an object with a string [id] and a
    [value] that is a string or of type object. *)
Definition json_item (item : Value) : Prop :=
  exists props i v,
    item = VObj props /\ own "id" props = Some (VStr i) /\
    own "value" props = Some v /\
    (typeof v = "object" \/ typeof v = "string").

(** A stand-in for the built-ins, to run examples: its [JSON.parse] reads
    the decimal numerals without sign, its [JSON.stringify] writes [null]
    and the strings that need no escape, and both throw on anything else. *)
Fixpoint numeral (s : string) (acc : Z) : option Z :=
  match s with
  | EmptyString => Some acc
  | String c r =>
      let n := N_of_ascii c in
      if ((48 <=? n) && (n <=? 57))%N
      then numeral r (10 * acc + Z.of_N (n - 48))%Z
      else None
  end.

Definition parse_numeral (v : Value) : Outcome Value :=
  match v with
  | VStr "0" => Ok (VNum 0)
  | VStr (String c r) =>
      if (N_of_ascii c =? 48)%N then Thrown SyntaxError
      else match numeral (String c r) 0 with
           | Some n => Ok (VNum n)
           | None => Thrown SyntaxError
           end
  | _ => Thrown SyntaxError
  end.

Definition quoted (s : string) : string :=
  String (ascii_of_nat 34) (s ++ String (ascii_of_nat 34) EmptyString).

Definition stringify_plain (v : Value) : Outcome Value :=
  match v with
  | VNull => Ok (VStr "null")
  | VStr s =>
      if ((count (ascii_of_nat 34) s =? 0) && (count (ascii_of_nat 92) s =? 0))%nat
      then Ok (VStr (quoted s)) else Thrown TypeError
  | _ => Thrown TypeError
  end.

Definition sample_host : Host := {|
  JSON_parse := parse_numeral;
  JSON_stringify := stringify_plain;
  ToString_other := fun _ => "[object Object]"
|}.

(** The store of a browser that accepts cookies and holds [content]. *)
Definition holding (content : string) : Browser := mkBrowser true content [].

End Spec.

(* ================================================================== *)
(** ** The rest of the class, and more vocabulary *)

Module CookiesRest.
Import JsString Js Cookies.

Section Methods.
Context `{Host}.

(** [Cookies.has(query)]:
    [let cookie = Cookies.first(query);
     if (cookie && cookie['value']) return true;
     return false]. *)
Definition has (query : Value) : Run Value :=
  (cookie <- first query ;;
   test <- (if ToBoolean cookie
            then value <- lift (get cookie "value") ;; ret (ToBoolean value)
            else ret false) ;;
   if test then ret (VBool true) else ret (VBool false))%run.

End Methods.
End CookiesRest.

Module SpecRest.
Import JsString Js Cookies Spec.

(** What a segment of the flat string stands for: the text before its first
    [=] and the text after it, both trimmed; a segment without [=] stands
    for itself on both sides. *)
Definition decoded (segment : string) : string * string :=
  (trim (before "=" segment),
   trim (if (count "=" segment =? 0)%nat then segment else after "=" segment)).

(** The entries of a flat content, one per [;]-separated segment. *)
Definition entries_of (content : string) : list (string * string) :=
  List.map decoded (split ";" content).

(** An id answers a query given as a string or as a regular expression. *)
Definition answers (query : Value) (e : string * string) : bool :=
  match query with
  | VStr q => fst e =? q
  | VRegExp test => test (fst e)
  | _ => false
  end.

(** The browser with one more message on its console. *)
Definition logged (m : Message) (b : Browser) : Browser :=
  mkBrowser (cookieEnabled b) (cookie b) (console b ++ [m]).

(** The browser with another content. *)
Definition rewritten (content : string) (b : Browser) : Browser :=
  mkBrowser (cookieEnabled b) content (console b).

(** The value handed to [store] for an item of [storeArrayAsJSON]: the
    result of [JSON.stringify], or the value itself when that throws. *)
Definition stringified `{Host} (item : Value) : Value :=
  match get item "value" with
  | Ok v => match JSON_stringify v with
            | Ok s => s
            | Thrown _ => v
            end
  | Thrown _ => VUndefined
  end.

(** An id or value that round-trips through the flat string as one entry
    of a container: no [;], [=] or [&], no white space at either end. *)
Definition plain (s : string) : Prop :=
  count ";" s = 0 /\ count "=" s = 0 /\ count "&" s = 0 /\ trimmed s.

(** An entry that comes back from the flat string as it went in: no [;]
    and no [=] in the id, no [;] in the value, no white space at either
    end of either. *)
Definition storable (e : string * string) : Prop :=
  count ";" (fst e) = 0 /\ count "=" (fst e) = 0 /\ trimmed (fst e) /\
  count ";" (snd e) = 0 /\ trimmed (snd e).

(** [JSON.stringify] throws on the value of the item. *)
Definition stringify_throws `{Host} (item : Value) : bool :=
  match get item "value" with
  | Ok v => match JSON_stringify v with
            | Ok _ => false
            | Thrown _ => true
            end
  | Thrown _ => false
  end.

(** The value handed to [store] for the item is a string. *)
Definition hands_a_string `{Host} (item : Value) : bool :=
  match stringified item with
  | VStr _ => true
  | _ => false
  end.

(** The messages of the items on which [JSON.stringify] throws, the items
    numbered from [index]. *)
Fixpoint stringify_failures `{Host} (index : nat) (items : list Value)
  : list Message :=
  match items with
  | [] => []
  | item :: rest =>
      (if stringify_throws item then [StringifyFailed index] else [])
      ++ stringify_failures (S index) rest
  end.

(** The container entry of the given id and sub-entries. *)
Definition container (i : string) (subs : list (string * string)) : Value :=
  entry (VStr i) "container" (VArr (List.map scalar subs)).

(** What the container pass makes of a decoded entry. *)
Definition unravelled (e : string * string) : Value :=
  if qualifies (snd e)
  then entry (VStr (fst e)) "container"
             (VArr (List.map split_and_trimmed (split "&" (snd e))))
  else scalar e.

(** The entry of the earlier revision, without [type], and what its
    [unravel] makes of it: the value parsed when [JSON.parse] takes it. *)
Definition legacy_scalar (e : string * string) : Value :=
  VObj [("id", VStr (fst e)); ("value", VStr (snd e))].

Definition legacy_unravelled `{Host} (e : string * string) : Value :=
  match JSON_parse (VStr (snd e)) with
  | Ok parsed => VObj [("id", VStr (fst e)); ("value", parsed)]
  | Thrown _ => legacy_scalar e
  end.

End SpecRest.

(* ================================================================== *)
(** ** Facts about the string methods *)

Module JsStringFacts.
Import JsString.

Lemma split_nonempty (c : ascii) (s : string) : split c s <> [].
Proof.
  destruct s as [|a r]; simpl; [discriminate|].
  destruct (Ascii.eqb a c); [discriminate|].
  destruct (split c r); discriminate.
Qed.

Lemma split_length (c : ascii) (s : string) :
  List.length (split c s) = S (count c s).
Proof.
  induction s as [|a r IH]; simpl; [reflexivity|].
  destruct (Ascii.eqb a c); simpl.
  - now rewrite IH.
  - destruct (split c r) eqn:E; simpl in *; [discriminate|assumption].
Qed.

Lemma indexOf_lower (c : ascii) (s : string) : (-1 <= indexOf c s)%Z.
Proof.
  induction s as [|a r IH]; simpl; [lia|].
  destruct (Ascii.eqb a c); [lia|].
  destruct (Z.eqb_spec (indexOf c r) (-1)); lia.
Qed.

Lemma indexOf_absent (c : ascii) (s : string) :
  indexOf c s = (-1)%Z <-> count c s = 0.
Proof.
  induction s as [|a r IH]; simpl; [tauto|].
  destruct (Ascii.eqb a c); simpl.
  - split; intro; [lia|discriminate].
  - pose proof (indexOf_lower c r).
    destruct (Z.eqb_spec (indexOf c r) (-1)) as [E|E]; split; intros Hx;
      try tauto; try lia.
Qed.

Lemma hd_split (c : ascii) (s : string) : hd "" (split c s) = before c s.
Proof.
  induction s as [|a r IH]; simpl; [reflexivity|].
  destruct (Ascii.eqb a c); simpl; [reflexivity|].
  destruct (split c r) eqn:E; simpl in *.
  - now destruct (split_nonempty c r).
  - now rewrite IH.
Qed.

Lemma before_length (c : ascii) (s : string) :
  count c s <> 0 -> indexOf c s = Z.of_nat (String.length (before c s)).
Proof.
  induction s as [|a r IH]; simpl; [congruence|].
  destruct (Ascii.eqb a c); simpl; [reflexivity|].
  intros Hc. specialize (IH Hc).
  destruct (Z.eqb_spec (indexOf c r) (-1)); lia.
Qed.

Lemma drop_after (c : ascii) (s : string) :
  count c s <> 0 -> drop (S (String.length (before c s))) s = after c s.
Proof.
  induction s as [|a r IH]; simpl; [congruence|].
  destruct (Ascii.eqb a c); simpl; [reflexivity|].
  intros Hc. exact (IH Hc).
Qed.

(** [s.substring(s.indexOf(c) + 1)] is the text after the first [c] ... *)
Lemma substring_present (c : ascii) (s : string) :
  count c s <> 0 -> substring (indexOf c s + 1) s = after c s.
Proof.
  intros Hc. unfold substring. rewrite (before_length c s Hc).
  replace (Z.to_nat (Z.of_nat (String.length (before c s)) + 1))
    with (S (String.length (before c s))) by lia.
  now apply drop_after.
Qed.

(** ... and the whole of [s] when there is no [c]: -1 + 1 is 0. *)
Lemma substring_absent (c : ascii) (s : string) :
  count c s = 0 -> substring (indexOf c s + 1) s = s.
Proof.
  intros Hc. apply indexOf_absent in Hc. rewrite Hc. reflexivity.
Qed.

Lemma before_absent (c : ascii) (s : string) : count c s = 0 -> before c s = s.
Proof.
  induction s as [|a r IH]; simpl; [reflexivity|].
  destruct (Ascii.eqb a c); simpl; [discriminate|].
  intros Hc. now rewrite IH.
Qed.

Lemma count_app (c : ascii) (s t : string) :
  count c (s ++ t) = count c s + count c t.
Proof.
  induction s as [|a r IH]; simpl; [reflexivity|]. rewrite IH. lia.
Qed.

Lemma before_app (c : ascii) (s t : string) :
  count c s = 0 -> before c (s ++ String c t) = s.
Proof.
  induction s as [|a r IH]; simpl.
  - now rewrite Ascii.eqb_refl.
  - destruct (Ascii.eqb a c); simpl; [discriminate|].
    intros Hc. now rewrite IH.
Qed.

Lemma after_app (c : ascii) (s t : string) :
  count c s = 0 -> after c (s ++ String c t) = t.
Proof.
  induction s as [|a r IH]; simpl.
  - now rewrite Ascii.eqb_refl.
  - destruct (Ascii.eqb a c); simpl; [discriminate|].
    intros Hc. now apply IH.
Qed.

Lemma split_absent (c : ascii) (s : string) : count c s = 0 -> split c s = [s].
Proof.
  induction s as [|a r IH]; simpl; [reflexivity|].
  destruct (Ascii.eqb a c); simpl; [discriminate|].
  intros Hc. now rewrite IH.
Qed.

Lemma split_app (c : ascii) (s t : string) :
  count c s = 0 -> split c (s ++ String c t) = s :: split c t.
Proof.
  induction s as [|a r IH]; simpl.
  - now rewrite Ascii.eqb_refl.
  - destruct (Ascii.eqb a c); simpl; [discriminate|].
    intros Hc. now rewrite IH.
Qed.

(** Splitting undoes joining when no piece holds the separator. *)
Lemma split_join (c : ascii) (l : list string) :
  l <> [] -> Forall (fun s => count c s = 0) l ->
  split c (join (String c "") l) = l.
Proof.
  induction l as [|x r IH]; [congruence|].
  intros _ Hall. inversion Hall as [|? ? Hx Hr]; subst.
  destruct r as [|y r'].
  - simpl. now apply split_absent.
  - change (join (String c "") (x :: y :: r'))
      with (x ++ String c (join (String c "") (y :: r'))).
    rewrite split_app by assumption.
    rewrite IH; [reflexivity|discriminate|assumption].
Qed.

(** A character other than the separator occurs in the pieces as often as
    in the whole. *)
Lemma count_split (c d : ascii) (s : string) :
  c <> d ->
  count d s = list_sum (List.map (count d) (split c s)).
Proof.
  intros Hcd. induction s as [|a r IH]; simpl; [reflexivity|].
  destruct (Ascii.eqb_spec a c) as [->|Hac]; simpl.
  - destruct (Ascii.eqb_spec c d); [contradiction|]. simpl. exact IH.
  - destruct (split c r) eqn:E; simpl in *.
    + now destruct (split_nonempty c r).
    + rewrite IH. lia.
Qed.

Lemma trimEnd_empty_inv (s : string) (c : ascii) :
  trimEnd s = "" -> count c s <> 0 -> is_whitespace c = true.
Proof.
  induction s as [|a r IH]; simpl; [congruence|].
  destruct (trimEnd r) eqn:E.
  - destruct (is_whitespace a) eqn:W; [|discriminate].
    intros _. destruct (Ascii.eqb_spec a c) as [->|]; simpl; [now intros _|].
    now apply IH.
  - discriminate.
Qed.

Lemma trimStart_count (s : string) (c : ascii) :
  is_whitespace c = false -> count c (trimStart s) = count c s.
Proof.
  intros W. induction s as [|a r IH]; simpl; [reflexivity|].
  destruct (is_whitespace a) eqn:Wa; simpl; [|reflexivity].
  destruct (Ascii.eqb_spec a c) as [->|]; simpl; [congruence|exact IH].
Qed.

(** A string holding a character that is no white space is not blank. *)
Lemma trim_not_blank (s : string) (c : ascii) :
  is_whitespace c = false -> count c s <> 0 -> trim s <> "".
Proof.
  intros W Hc Ht. unfold trim in Ht.
  rewrite <- (trimStart_count s c W) in Hc.
  pose proof (trimEnd_empty_inv _ c Ht Hc). congruence.
Qed.

Lemma trim_blank_eqb (s : string) (c : ascii) :
  is_whitespace c = false -> count c s <> 0 -> (trim s =? "") = false.
Proof.
  intros W Hc. apply String.eqb_neq. now apply (trim_not_blank s c).
Qed.

End JsStringFacts.

(* ================================================================== *)
(** ** Decoding *)

Module DecodeFacts.
Import JsString Js Cookies Spec JsStringFacts.

Lemma all_decodes (st : Browser) :
  cookieEnabled st = true -> trim (cookie st) <> "" ->
  all st = (Ok (List.map all_entry (split ";" (cookie st))), st).
Proof.
  intros He Hb. apply String.eqb_neq in Hb.
  unfold all, bind, navigator_cookieEnabled, document_cookie, ret.
  rewrite He; simpl. now rewrite Hb.
Qed.

Lemma all_blank (st : Browser) :
  cookieEnabled st = true -> trim (cookie st) = "" -> all st = (Ok [], st).
Proof.
  intros He Hb. apply String.eqb_eq in Hb.
  unfold all, bind, navigator_cookieEnabled, document_cookie, ret.
  rewrite He; simpl. now rewrite Hb.
Qed.

(** Decoding throws nothing and leaves the store as it is. *)
Lemma all_returns (st : Browser) :
  exists cookies st', all st = (Ok cookies, st') /\ cookie st' = cookie st.
Proof.
  unfold all, bind, navigator_cookieEnabled, document_cookie, ret, console_error.
  destruct (cookieEnabled st); simpl.
  - destruct (trim (cookie st) =? ""); eauto.
  - eauto.
Qed.

Lemma all_entry_without_equals (segment : string) :
  count "=" segment = 0 ->
  all_entry segment = scalar (trim segment, trim segment).
Proof.
  intros Hc. unfold all_entry, scalar; simpl.
  rewrite hd_split, before_absent, substring_absent by assumption.
  reflexivity.
Qed.

Lemma all_entry_text (e : string * string) :
  count "=" (fst e) = 0 -> trimmed (fst e) -> trimmed (snd e) ->
  all_entry (text e) = scalar e.
Proof.
  destruct e as [i v]; unfold text, trimmed, all_entry, scalar; simpl.
  intros Hc Hi Hv.
  assert (Hp : count "=" (i ++ String "=" v) <> 0)
    by (rewrite count_app; simpl; lia).
  rewrite hd_split, before_app, substring_present, after_app by assumption.
  now rewrite Hi, Hv.
Qed.

(** *** C10 *)

(** C10 (amended). Over a store that accepts cookies and whose content is
    not blank, a [;]-separated segment of the flat string that holds no [=]
    is decoded by [all], at the position of the segment, to an entry whose
    id and whose value are both the whole segment, trimmed: the value
    duplicates the id, also when that text is empty. *)
Theorem all_segment_without_equals (st : Browser) (k : nat) (segment : string) :
  cookieEnabled st = true ->
  trim (cookie st) <> "" ->
  nth_error (split ";" (cookie st)) k = Some segment ->
  count "=" segment = 0 ->
  exists cookies,
    all st = (Ok cookies, st) /\
    List.length cookies = List.length (split ";" (cookie st)) /\
    nth_error cookies k =
      Some (entry (VStr (trim segment)) "string" (VStr (trim segment))).
Proof.
  intros He Hb Hk Hc.
  exists (List.map all_entry (split ";" (cookie st))).
  split; [now apply all_decodes|].
  split; [now rewrite length_map|].
  rewrite nth_error_map, Hk. simpl.
  now rewrite all_entry_without_equals.
Qed.

Lemma all_segment_without_equals_witness :
  cookieEnabled (holding "a=1; flag ;b=2") = true /\
  trim (cookie (holding "a=1; flag ;b=2")) <> "" /\
  nth_error (split ";" (cookie (holding "a=1; flag ;b=2"))) 1 = Some " flag " /\
  count "=" " flag " = 0 /\
  exists cookies,
    all (holding "a=1; flag ;b=2") = (Ok cookies, holding "a=1; flag ;b=2") /\
    List.length cookies = 3 /\
    nth_error cookies 1 = Some (entry (VStr "flag") "string" (VStr "flag")).
Proof.
  assert (Hb : trim (cookie (holding "a=1; flag ;b=2")) <> "")
    by (vm_compute; discriminate).
  repeat (split; [first [reflexivity | exact Hb]|]).
  exact (all_segment_without_equals (holding "a=1; flag ;b=2") 1 " flag "
           eq_refl Hb eq_refl eq_refl).
Defined.

(** C10, as stated, fails.  The content [a=1;] ends in an empty segment,
    which holds no [=]: its entry has the empty id and the empty value, so
    the value is empty.  The blank content of two spaces is one segment
    without [=], and so is the content [flag] of a store that refuses
    cookies: [all] emits no entry for either. *)
Lemma all_segment_empty_or_not_emitted :
  (nth_error (split ";" "a=1;") 1 = Some "" /\ count "=" "" = 0 /\
   all (holding "a=1;") =
     (Ok [entry (VStr "a") "string" (VStr "1");
          entry (VStr "") "string" (VStr "")], holding "a=1;"))
  /\ (nth_error (split ";" "  ") 0 = Some "  " /\ count "=" "  " = 0 /\
      all (holding "  ") = (Ok [], holding "  "))
  /\ (nth_error (split ";" "flag") 0 = Some "flag" /\ count "=" "flag" = 0 /\
      all (mkBrowser false "flag" []) =
        (Ok [], mkBrowser false "flag" [CookiesDisabled])).
Proof.
  repeat split.
Qed.

End DecodeFacts.

(* ================================================================== *)
(** ** Queries *)

Module QueryFacts.
Import JsString Js Cookies Spec JsStringFacts DecodeFacts.

Ltac decide_bounds :=
  repeat match goal with
    | |- context [(?a <=? ?b)%Z] => destruct (Z.leb_spec a b)
    | |- context [(?a <? ?b)%Z] => destruct (Z.ltb_spec a b)
    end; simpl; try reflexivity; try lia.

(** An index at or beyond either end finds nothing, and so does the index
    [-length]: the negative branch asks for [query > -length]. *)
Lemma first_of_out_of_range `{Host} (cookies : list Value) (q : Z) :
  (Z.of_nat (List.length cookies) <= q \/ q <= - Z.of_nat (List.length cookies))%Z ->
  cookies <> [] ->
  first_of cookies (VNum q) = Ok VNull.
Proof.
  intros Hq Hne. unfold first_of.
  assert (0 < Z.of_nat (List.length cookies))%Z
    by (destruct cookies; [congruence|simpl; lia]).
  decide_bounds.
Qed.

Lemma first_of_zero `{Host} (c : Value) (cookies : list Value) :
  first_of (c :: cookies) (VNum 0) = Ok c.
Proof.
  unfold first_of. simpl List.length.
  decide_bounds.
Qed.

(** *** C3 *)

(** C3 (amended). For the decoded sequence of length N, [first] resolves the
    queries N, -(N+1) and -N to null, and the query 0 to the first entry
    when there is one. *)
Theorem first_index_boundary `{Host} (st st' : Browser) (cookies : list Value) :
  all st = (Ok cookies, st') ->
  let N := Z.of_nat (List.length cookies) in
  first (VNum N) st = (Ok VNull, st') /\
  first (VNum (- (N + 1))) st = (Ok VNull, st') /\
  first (VNum (- N)) st = (Ok VNull, st') /\
  (forall c, nth_error cookies 0 = Some c -> first (VNum 0) st = (Ok c, st')).
Proof.
  intros Hall N. unfold first, bind. rewrite Hall.
  destruct cookies as [|c r].
  - simpl. repeat split; try reflexivity. discriminate.
  - change (negb (List.length (c :: r) =? 0)%nat) with true. cbv iota.
    unfold lift.
    rewrite !first_of_out_of_range by (try discriminate; subst N; lia).
    repeat split; try reflexivity.
    intros c' Hc'. simpl in Hc'. injection Hc' as <-.
    now rewrite first_of_zero.
Qed.

(** C3, as stated, fails: over the one-entry sequence decoded from [a=1]
    the query 0 finds the entry and the query -1, which is -N, finds
    nothing. *)
Lemma first_minus_length_is_absent :
  all (holding "a=1") = (Ok [scalar ("a", "1")], holding "a=1") /\
  fst (@first sample_host (VNum 0) (holding "a=1")) = Ok (scalar ("a", "1")) /\
  fst (@first sample_host (VNum (-1)) (holding "a=1")) = Ok VNull /\
  fst (@first sample_host (VNum (-1)) (holding "a=1"))
    <> fst (@first sample_host (VNum 0) (holding "a=1")).
Proof.
  repeat split; try reflexivity. vm_compute. discriminate.
Qed.

Lemma first_index_boundary_witness :
  all (holding "a=1;b=2") = (Ok [scalar ("a", "1"); scalar ("b", "2")], holding "a=1;b=2") /\
  @first sample_host (VNum 2) (holding "a=1;b=2") = (Ok VNull, holding "a=1;b=2") /\
  @first sample_host (VNum (-3)) (holding "a=1;b=2") = (Ok VNull, holding "a=1;b=2") /\
  @first sample_host (VNum (-2)) (holding "a=1;b=2") = (Ok VNull, holding "a=1;b=2") /\
  @first sample_host (VNum 0) (holding "a=1;b=2") = (Ok (scalar ("a", "1")), holding "a=1;b=2").
Proof.
  split; [reflexivity|].
  destruct (@first_index_boundary sample_host (holding "a=1;b=2") (holding "a=1;b=2")
              [scalar ("a", "1"); scalar ("b", "2")] eq_refl)
    as (H1 & H2 & H3 & H4).
  exact (conj H1 (conj H2 (conj H3 (H4 _ eq_refl)))).
Defined.

(** *** C4 *)

Lemma entry_shape_returns (x : Value) :
  x <> VNull -> exists t, entry_shape x = Ok t.
Proof.
  intros Hx. unfold entry_shape, Object_hasOwn, get.
  destruct x as [| | | | |?|props|?]; simpl; try congruence; eauto.
  destruct (own "id" props) as [[| | | |i| | |]|];
    destruct (own "value" props) as [[| | | |v| | |]|]; simpl; eauto.
Qed.

(** The [every] of [firstIn] and [findIn] is false on every array that is
    not empty: its callback answers [undefined]. *)
Lemma every_entry_shape_callback (x : Value) (r : list Value) :
  x <> VNull -> Array_every entry_shape_callback (x :: r) = Ok false.
Proof.
  intros Hx. destruct (entry_shape_returns x Hx) as [t E].
  simpl. unfold entry_shape_callback. now rewrite E.
Qed.

Lemma firstIn_findIn_find_nothing `{Host} (cookies query : Value) :
  Forall (fun c => c <> VNull) (elements cookies) ->
  firstIn cookies query = Ok VNull /\ findIn cookies query = Ok VNull.
Proof.
  intros Hall. unfold firstIn, findIn.
  destruct cookies as [| | | | |l|?|?]; simpl; try (split; reflexivity).
  destruct l as [|x r]; simpl; [split; reflexivity|].
  inversion Hall as [|? ? Hx _]; subst.
  destruct (entry_shape_returns x Hx) as [t E].
  unfold entry_shape_callback. rewrite E. split; reflexivity.
Qed.

(** C4 (the code departs from it). Over the sequence decoded from [a=1],
    [first] and [find] resolve the query ["a"] to the entry, while
    [firstIn] and [findIn], given that very sequence, resolve it to null. *)
Theorem firstIn_findIn_differ_from_first_find :
  all (holding "a=1") = (Ok [scalar ("a", "1")], holding "a=1") /\
  fst (@first sample_host (VStr "a") (holding "a=1")) = Ok (scalar ("a", "1")) /\
  @firstIn sample_host (VArr [scalar ("a", "1")]) (VStr "a") = Ok VNull /\
  fst (@find sample_host (VStr "a") (holding "a=1")) = Ok (VArr [scalar ("a", "1")]) /\
  @findIn sample_host (VArr [scalar ("a", "1")]) (VStr "a") = Ok VNull.
Proof.
  repeat split.
Qed.

End QueryFacts.

(* ================================================================== *)
(** ** Storing *)

Module StoreFacts.
Import JsString Js Cookies Spec JsStringFacts DecodeFacts.

Lemma append_assoc (a b c : string) : (a ++ b) ++ c = a ++ (b ++ c).
Proof.
  induction a as [|x a IH]; simpl; [reflexivity|]. now rewrite IH.
Qed.

(** The shape test accepts exactly the Scalar-shaped items, and the text
    written for one is [id=value]. *)
Lemma scalar_shape_accepts (item : Value) (e : string * string) :
  scalar_fields item = Some e -> scalar_shape item = Ok true.
Proof.
  destruct item as [| | | | |?|props|?]; simpl; try discriminate.
  unfold scalar_shape, Object_hasOwn, get; simpl.
  destruct (own "id" props) as [[| | | |i| | |]|]; try discriminate.
  destruct (own "value" props) as [[| | | |v| | |]|]; try discriminate.
  reflexivity.
Qed.

Lemma id_equals_value_text `{Host} (item : Value) (e : string * string) :
  scalar_fields item = Some e -> id_equals_value item = Ok (text e).
Proof.
  destruct item as [| | | | |?|props|?]; simpl; try discriminate.
  unfold id_equals_value, get; simpl.
  destruct (own "id" props) as [[| | | |i| | |]|]; try discriminate.
  destruct (own "value" props) as [[| | | |v| | |]|]; try discriminate.
  intros [= <-]. reflexivity.
Qed.

Lemma scalar_shape_rejects (item : Value) :
  item <> VNull -> scalar_fields item = None -> scalar_shape item = Ok false.
Proof.
  destruct item as [| | | | |?|props|?]; simpl; try reflexivity; try congruence.
  intros _. unfold scalar_shape, Object_hasOwn, get; simpl.
  destruct (own "id" props) as [[| | | |i| | |]|];
    destruct (own "value" props) as [[| | | |v| | |]|];
    simpl; try reflexivity; discriminate.
Qed.

Lemma scalar_shape_null : scalar_shape VNull = Thrown TypeError.
Proof. reflexivity. Qed.

Lemma every_scalar_accepts (items : list Value) :
  Forall (fun item => scalar_fields item <> None) items ->
  Array_every scalar_shape_callback items = Ok true.
Proof.
  induction 1 as [|item r Hi _ IH]; simpl; [reflexivity|].
  destruct (scalar_fields item) as [e|] eqn:E; [|congruence].
  unfold scalar_shape_callback at 1.
  rewrite (scalar_shape_accepts item e E). simpl. exact IH.
Qed.

Lemma every_scalar_rejects (good : list Value) (bad : Value)
  (rest : list Value) :
  Forall (fun item => scalar_fields item <> None) good ->
  bad <> VNull -> scalar_fields bad = None ->
  Array_every scalar_shape_callback (good ++ bad :: rest) = Ok false.
Proof.
  intros Hall Hn Hbad.
  induction Hall as [|item r Hi _ IH]; simpl.
  - unfold scalar_shape_callback at 1. now rewrite scalar_shape_rejects.
  - destruct (scalar_fields item) as [e|] eqn:E; [|congruence].
    unfold scalar_shape_callback at 1.
    rewrite (scalar_shape_accepts item e E). simpl. exact IH.
Qed.


Lemma packed_join (sep : string) (texts : list string) (start : string) :
  texts <> [] ->
  Forall (fun t => count "=" t <> 0) texts ->
  packed sep start texts =
    if trim start =? "" then join sep texts else start ++ sep ++ join sep texts.
Proof.
  revert start. induction texts as [|t r IH]; [congruence|].
  intros start _ Hall. inversion Hall as [|? ? Ht Hr]; subst.
  destruct r as [|t' r'].
  - reflexivity.
  - change (packed sep start (t :: t' :: r'))
      with (packed sep (if trim start =? "" then t else start ++ sep ++ t) (t' :: r')).
    rewrite IH by (try discriminate; assumption).
    change (join sep (t :: t' :: r')) with (t ++ sep ++ join sep (t' :: r')).
    destruct (trim start =? "") eqn:Es.
    + now rewrite (trim_blank_eqb t "=") by (try reflexivity; assumption).
    + rewrite (trim_blank_eqb (start ++ sep ++ t) "=").
      * now rewrite !append_assoc.
      * reflexivity.
      * rewrite !count_app. lia.
Qed.

Lemma text_has_equals (e : string * string) : count "=" (text e) <> 0.
Proof.
  destruct e as [i v]. unfold text; simpl. rewrite count_app. simpl. lia.
Qed.

Lemma text_of_has_equals (items : list Value) :
  Forall (fun item => scalar_fields item <> None) items ->
  Forall (fun t => count "=" t <> 0) (List.map text_of items).
Proof.
  induction 1 as [|item r Hi _ IH]; simpl; constructor; [|exact IH].
  unfold text_of. destruct (scalar_fields item); [apply text_has_equals|congruence].
Qed.

Lemma storeArray_loop `{Host} (items : list Value) (n index : nat) (s : string)
  (b : Browser) :
  Forall (fun item => scalar_fields item <> None) items ->
  Array_forEach storeArray_step index items (n, s) b =
    (Ok (n + List.length items, packed ";" s (List.map text_of items)), b).
Proof.
  intros Hall. revert n index s.
  induction Hall as [|item r Hi _ IH]; intros n index s; simpl.
  - unfold ret. now rewrite Nat.add_0_r.
  - destruct (scalar_fields item) as [e|] eqn:E; [|congruence].
    pose proof (id_equals_value_text item e E) as Ht.
    unfold bind at 1, storeArray_step at 1, bind, lift, ret. rewrite Ht.
    assert (Hx : text_of item = text e) by (unfold text_of; now rewrite E).
    rewrite IH, !Hx.
    replace (n + 1 + List.length r) with (n + S (List.length r)) by lia.
    reflexivity.
Qed.

Lemma storeAsContainer_loop `{Host} (items : list Value) (n index : nat)
  (s : string) (b : Browser) :
  Forall (fun item => scalar_fields item <> None) items ->
  Array_forEach storeAsContainer_step index items (n, s) b =
    (Ok (n + List.length items, packed "&" s (List.map text_of items)), b).
Proof.
  intros Hall. revert n index s.
  induction Hall as [|item r Hi _ IH]; intros n index s; simpl.
  - unfold ret. now rewrite Nat.add_0_r.
  - destruct (scalar_fields item) as [e|] eqn:E; [|congruence].
    pose proof (id_equals_value_text item e E) as Ht.
    unfold bind at 1, storeAsContainer_step at 1, bind, lift, ret. rewrite Ht.
    assert (Hx : text_of item = text e) by (unfold text_of; now rewrite E).
    rewrite IH, !Hx.
    replace (n + 1 + List.length r) with (n + S (List.length r)) by lia.
    reflexivity.
Qed.

Lemma count_join_head (c : ascii) (sep t : string) (r : list string) :
  count c t <= count c (join sep (t :: r)).
Proof.
  destruct r as [|t' r']; [simpl; lia|].
  change (join sep (t :: t' :: r')) with (t ++ sep ++ join sep (t' :: r')).
  rewrite count_app. lia.
Qed.

Lemma text_of_scalar (es : list (string * string)) :
  List.map text_of (List.map scalar es) = List.map text es.
Proof.
  induction es as [|[i v] r IH]; simpl; [reflexivity|]. now rewrite IH.
Qed.

Lemma scalar_is_scalar (es : list (string * string)) :
  Forall (fun item => scalar_fields item <> None) (List.map scalar es).
Proof.
  induction es as [|[i v] r IH]; simpl; constructor; [discriminate|exact IH].
Qed.

Lemma storeArray_rejected `{Host} (items : Value) (st : Browser) :
  (Ok (typeof items =? "object")
   &&& Ok (Array_isArray items)
   &&& Ok (0 <? List.length (elements items))%nat
   &&& Array_every scalar_shape_callback (elements items))%outcome = Ok false ->
  storeArray items st =
    (Ok (VBool false),
     mkBrowser (cookieEnabled st) (cookie st) (console st ++ [CountMismatch 0 0])).
Proof.
  intros Hc. unfold storeArray, bind, lift. rewrite Hc. reflexivity.
Qed.

Lemma storeArray_accepted `{Host} (items : list Value) (st : Browser) :
  items <> [] ->
  Forall (fun item => scalar_fields item <> None) items ->
  storeArray (VArr items) st =
    (Ok (VBool true),
     mkBrowser (cookieEnabled st)
               (appended (cookie st) (List.map text_of items))
               (console st)).
Proof.
  intros Hne Hall.
  unfold storeArray, bind, lift. simpl typeof. simpl Array_isArray.
  simpl elements. rewrite (every_scalar_accepts items Hall).
  destruct items as [|x r] eqn:Ei; [congruence|]. rewrite <- Ei in *.
  replace (0 <? List.length items)%nat with true by (subst items; reflexivity).
  cbn [and_then String.eqb Ascii.eqb Bool.eqb].
  unfold document_cookie.
  rewrite (storeArray_loop items 0 0 (cookie st) st Hall).
  rewrite Nat.eqb_refl. unfold set_document_cookie, ret.
  rewrite packed_join by
    (try (subst items; discriminate); now apply text_of_has_equals).
  unfold appended. subst items. reflexivity.
Qed.

(** *** C2 *)




(** *** C1 *)

Lemma all_of_texts (es : list (string * string)) (st : Browser) :
  es <> [] ->
  cookieEnabled st = true ->
  cookie st = join ";" (List.map text es) ->
  Forall (fun e => free_of_delimiters (fst e) /\ free_of_delimiters (snd e) /\
                   trimmed (fst e) /\ trimmed (snd e)) es ->
  all st = (Ok (List.map scalar es), st).
Proof.
  intros Hne He Hc Hall.
  rewrite all_decodes; [|assumption|].
  - rewrite Hc, split_join.
    + rewrite map_map. do 2 f_equal. apply map_ext_in. intros e Hin.
      rewrite Forall_forall in Hall. destruct (Hall e Hin) as ((_ & Hi) & _ & Ti & Tv).
      now apply all_entry_text.
    + destruct es; [congruence|discriminate].
    + rewrite Forall_map. eapply Forall_impl; [|exact Hall].
      intros [i v] ((Hi & _) & (Hv & _) & _). unfold text; simpl in *.
      rewrite count_app. simpl. lia.
  - rewrite Hc. destruct es as [|e r]; [congruence|]. simpl List.map.
    apply (trim_not_blank _ "="); [reflexivity|].
    pose proof (count_join_head "=" ";" (text e) (List.map text r)).
    pose proof (text_has_equals e). lia.
Qed.

(** C1 (amended). Over a store that accepts cookies and is empty, writing
    Scalar entries with [storeArray] and decoding with [all] gives the
    entries back, in order, when their ids and values hold no [;] and no
    [=] and no white space at either end. *)
Theorem storeArray_all_roundtrip `{Host} (es : list (string * string))
  (st : Browser) :
  cookieEnabled st = true ->
  cookie st = "" ->
  Forall (fun e => free_of_delimiters (fst e) /\ free_of_delimiters (snd e) /\
                   trimmed (fst e) /\ trimmed (snd e)) es ->
  fst (all (snd (storeArray (VArr (List.map scalar es)) st))) =
    Ok (List.map scalar es).
Proof.
  intros He Hc Hall.
  pose proof (storeArray_accepted (List.map scalar es) st) as Hfull.
  destruct es as [|e r] eqn:Ees.
  - simpl List.map. rewrite storeArray_rejected by reflexivity. simpl snd.
    rewrite all_blank; [reflexivity|assumption|simpl; now rewrite Hc].
  - rewrite <- Ees in *.
    rewrite Hfull by (try apply scalar_is_scalar; subst es; discriminate).
    simpl snd. rewrite (all_of_texts es); [reflexivity| | | |assumption].
    + subst es; discriminate.
    + exact He.
    + simpl cookie. rewrite text_of_scalar, Hc. unfold appended.
      subst es. reflexivity.
Qed.

(** C1, as stated, fails: the id [" a"] holds neither [;] nor [=], and
    comes back from the store as ["a"]. *)
Lemma storeArray_all_drops_padding :
  Forall (fun e => free_of_delimiters (fst e) /\ free_of_delimiters (snd e))
         [(" a", "1")] /\
  fst (all (snd (@storeArray sample_host (VArr (List.map scalar [(" a", "1")]))
                   (holding "")))) = Ok [scalar ("a", "1")] /\
  fst (all (snd (@storeArray sample_host (VArr (List.map scalar [(" a", "1")]))
                   (holding "")))) <> Ok (List.map scalar [(" a", "1")]).
Proof.
  split; [|split].
  - repeat constructor.
  - reflexivity.
  - vm_compute. discriminate.
Qed.

Lemma storeArray_all_roundtrip_witness :
  fst (all (snd (@storeArray sample_host
                   (VArr (List.map scalar [("a", "1"); ("b c", "x&y")]))
                   (holding "")))) =
    Ok (List.map scalar [("a", "1"); ("b c", "x&y")]).
Proof.
  apply (@storeArray_all_roundtrip sample_host); [reflexivity|reflexivity|].
  repeat constructor.
Defined.

(** *** C8 *)

(** What [storeAsContainer] writes for a well-formed container: the packed
    text directly after the old content, whatever the old content is. *)
Lemma storeAsContainer_writes `{Host} (props : list (string * Value))
  (i : string) (subs : list Value) (st : Browser) :
  own "id" props = Some (VStr i) ->
  own "value" props = Some (VArr subs) ->
  subs <> [] ->
  Forall (fun sub => scalar_fields sub <> None) subs ->
  storeAsContainer (VObj props) st =
    (Ok (VBool true),
     mkBrowser (cookieEnabled st)
               (cookie st ++ i ++ "=" ++ join "&" (List.map text_of subs))
               (console st)).
Proof.
  intros Hi Hv Hne Hall.
  unfold storeAsContainer, bind, lift, Object_hasOwn, get.
  rewrite Hi, Hv. cbn [obind]. simpl typeof. simpl Array_isArray. simpl elements.
  rewrite (every_scalar_accepts subs Hall).
  destruct subs as [|x r] eqn:Es; [congruence|]. rewrite <- Es in *.
  replace (0 <? List.length subs)%nat with true by (subst subs; reflexivity).
  cbn [and_then obind String.eqb Ascii.eqb Bool.eqb].
  unfold document_cookie.
  rewrite (storeAsContainer_loop subs 0 0 "" st Hall).
  rewrite Nat.eqb_refl. unfold set_document_cookie, ret.
  rewrite packed_join by
    (try (subst subs; discriminate); now apply text_of_has_equals).
  reflexivity.
Qed.

(** C8 (the code departs from it). With the content [a=1] in the store,
    [storeAsContainer] writes the container [c] of [x=1] and [y=2] directly
    after the old content, with no [;] between them, where [store] puts
    one; decoding the result finds one entry, [a], and no entry [c]. *)
Theorem storeAsContainer_omits_separator :
  @storeAsContainer sample_host
     (VObj [("id", VStr "c");
            ("value", VArr [VObj [("id", VStr "x"); ("value", VStr "1")];
                            VObj [("id", VStr "y"); ("value", VStr "2")]])])
     (holding "a=1") =
    (Ok (VBool true), holding "a=1c=x=1&y=2")
  /\ @store sample_host (VObj [("id", VStr "c"); ("value", VStr "x=1&y=2")])
        (holding "a=1") =
      (Ok (VBool true), holding "a=1;c=x=1&y=2")
  /\ fst (all (holding "a=1c=x=1&y=2")) = Ok [scalar ("a", "1c=x=1&y=2")].
Proof.
  repeat split.
Qed.

(** *** C9 *)

Lemma json_item_shape_accepts (item : Value) :
  json_item item -> json_item_shape item = Ok true.
Proof.
  intros (props & i & v & -> & Hi & Hv & Hty).
  unfold json_item_shape, Object_hasOwn, get. rewrite Hi, Hv. simpl.
  destruct Hty as [-> | ->]; reflexivity.
Qed.

Lemma every_json_accepts (items : list Value) :
  Forall json_item items ->
  Array_every json_item_shape_callback items = Ok true.
Proof.
  induction 1 as [|item r Hi _ IH]; simpl; [reflexivity|].
  unfold json_item_shape_callback at 1.
  rewrite (json_item_shape_accepts item Hi). simpl. exact IH.
Qed.

(** [store] throws on no object. *)
Lemma store_returns `{Host} (props : list (string * Value)) (b : Browser) :
  exists r b', store (VObj props) b = (Ok r, b').
Proof.
  unfold store, bind, lift.
  destruct (scalar_fields (VObj props)) as [e|] eqn:E.
  - rewrite (scalar_shape_accepts _ e E), (id_equals_value_text _ e E).
    unfold document_cookie, set_document_cookie, ret. eauto.
  - rewrite scalar_shape_rejects by (try discriminate; assumption).
    unfold ret. eauto.
Qed.

Lemma storeArrayAsJSON_step_returns `{Host} (item : Value) (n index : nat)
  (b : Browser) :
  json_item item ->
  exists n' b', storeArrayAsJSON_step n index item b = (Ok n', b').
Proof.
  intros (props & i & v & -> & Hi & Hv & _).
  unfold storeArrayAsJSON_step, get. rewrite Hi, Hv.
  cbn [obind]. unfold bind at 1, lift at 1.
  destruct (JSON_stringify v) as [s|e].
  - destruct (store_returns [("id", VStr i); ("value", s)] b) as (r & b' & E).
    unfold bind, ret. rewrite E. eauto.
  - destruct (store_returns [("id", VStr i); ("value", v)]
                (snd (console_error (StringifyFailed index) b))) as (r & b' & E).
    unfold bind, ret. rewrite E. eauto.
Qed.

Lemma storeArrayAsJSON_loop_returns `{Host} (items : list Value)
  (n index : nat) (b : Browser) :
  Forall json_item items ->
  exists n' b', Array_forEach storeArrayAsJSON_step index items n b = (Ok n', b').
Proof.
  intros Hall. revert n index b.
  induction Hall as [|item r Hi _ IH]; intros n index b; simpl.
  - unfold ret. eauto.
  - destruct (storeArrayAsJSON_step_returns item n index b Hi) as (n' & b' & E).
    unfold bind. rewrite E. apply IH.
Qed.

(** C9. For a batch that the shape test of [storeArrayAsJSON] accepts, the
    call returns, and the content of the store after it is the content
    before it: the string read before the loop is assigned back after the
    loop, over whatever the calls of [store] in the loop wrote. *)
Theorem storeArrayAsJSON_restores_content `{Host} (items : list Value)
  (st : Browser) :
  items <> [] ->
  Forall json_item items ->
  exists r st',
    storeArrayAsJSON (VArr items) st = (Ok r, st') /\ cookie st' = cookie st.
Proof.
  intros Hne Hall.
  unfold storeArrayAsJSON. unfold bind at 1, lift at 1.
  simpl typeof. simpl Array_isArray. simpl elements.
  rewrite (every_json_accepts items Hall).
  replace (0 <? List.length items)%nat with true
    by (destruct items; [congruence|reflexivity]).
  cbn [and_then String.eqb Ascii.eqb Bool.eqb].
  unfold bind at 1. unfold bind at 1, document_cookie at 1.
  unfold bind at 1.
  destruct (storeArrayAsJSON_loop_returns items 0 0 st Hall) as (n & b & E).
  rewrite E. unfold bind at 1, set_document_cookie at 1, ret at 1.
  destruct (List.length items =? n)%nat.
  - unfold ret. eauto.
  - unfold bind, console_error, ret. eauto.
Qed.

Lemma storeArrayAsJSON_restores_content_witness :
  exists r st',
    @storeArrayAsJSON sample_host
       (VArr [VObj [("id", VStr "n"); ("value", VStr "x")];
              VObj [("id", VStr "m"); ("value", VNull)]])
       (holding "a=1") = (Ok r, st')
    /\ cookie st' = cookie (holding "a=1").
Proof.
  apply (@storeArrayAsJSON_restores_content sample_host).
  - discriminate.
  - repeat constructor.
    + exists [("id", VStr "n"); ("value", VStr "x")], "n", (VStr "x").
      repeat split. right. reflexivity.
    + exists [("id", VStr "m"); ("value", VNull)], "m", VNull.
      repeat split. left. reflexivity.
Defined.

(** What the loop of that example wrote before the content was put back. *)
Example storeArrayAsJSON_loop_appends :
  cookie (snd (Array_forEach (@storeArrayAsJSON_step sample_host) 0
                 [VObj [("id", VStr "n"); ("value", VStr "x")];
                  VObj [("id", VStr "m"); ("value", VNull)]]
                 0 (holding "a=1"))) =
    "a=1;n=" ++ quoted "x" ++ ";m=null".
Proof. reflexivity. Qed.

End StoreFacts.

(* ================================================================== *)
(** ** Unravelling *)

Module UnravelFacts.
Import JsString Js Cookies Spec JsStringFacts DecodeFacts.

(** The first [map] of [unravel] changes no cookie: when [JSON.parse]
    throws the handler returns the cookie, and when it returns, reading
    [parsedType] throws and the handler returns the cookie. *)
Lemma unravel_json_unchanged `{Host} (scope : list (string * Value))
  (cookie : Value) :
  own "parsedType" scope = None ->
  unravel_json scope cookie = Ok cookie.
Proof.
  intros Hs. unfold unravel_json, try_catch, identifier.
  destruct (get cookie "value") as [v|]; simpl; [|reflexivity].
  destruct (JSON_parse v) as [p|]; simpl; [|reflexivity].
  destruct (get cookie "id") as [i|]; simpl; [|reflexivity].
  now rewrite Hs.
Qed.

Lemma map_unravel_json_unchanged `{Host} (scope : list (string * Value))
  (cookies : list Value) :
  own "parsedType" scope = None ->
  Array_map (unravel_json scope) cookies = Ok cookies.
Proof.
  intros Hs. induction cookies as [|c r IH]; simpl; [reflexivity|].
  now rewrite unravel_json_unchanged, IH.
Qed.

(** What [unravel] does under a mode given as a string. *)
Lemma unravel_by_mode `{Host} (mode : string) (st st' : Browser)
  (cookies : list Value) :
  all st = (Ok cookies, st') ->
  unravel (VStr mode) st =
    if negb (mode =? "string") && negb (mode =? "json")
    then (obind (Array_map unravel_container cookies) (fun l => Ok (VArr l)), st')
    else (Ok (VArr cookies), st').
Proof.
  intros Hall. unfold unravel. unfold bind at 1. rewrite Hall.
  replace (negb (typeof (VStr mode) =? "string")) with false by reflexivity.
  cbn [andb is_string].
  assert (E : forall b,
    (if negb (mode =? "string") && negb (mode =? "container")
     then lift (Array_map
                  (unravel_json
                     [("checkedCookies", VArr cookies); ("cookies", VArr cookies);
                      ("cookieType", VStr mode)]) cookies)
     else ret cookies) b = (Ok cookies, b)).
  { intros b. destruct (negb (mode =? "string") && negb (mode =? "container")).
    - unfold lift. now rewrite map_unravel_json_unchanged.
    - reflexivity. }
  unfold bind at 1. rewrite E. unfold bind, lift, ret.
  destruct (negb (mode =? "string") && negb (mode =? "json")); [|reflexivity].
  destruct (Array_map unravel_container cookies); reflexivity.
Qed.

(** *** C5 *)

(** C5 (the code departs from it). With a [JSON.parse] that reads ["5"] as
    the number 5, [unravel] in mode ['all'] over the content [n=5] leaves
    the entry as decoded: type ['string'], value the string ["5"]. *)
Theorem unravel_all_keeps_numeral_a_string `{Host} :
  JSON_parse (VStr "5") = Ok (VNum 5) ->
  unravel (VStr "all") (holding "n=5") =
    (Ok (VArr [entry (VStr "n") "string" (VStr "5")]), holding "n=5").
Proof.
  intros _. rewrite (unravel_by_mode "all" (holding "n=5") (holding "n=5")
                       [scalar ("n", "5")] eq_refl).
  reflexivity.
Qed.

Lemma unravel_all_keeps_numeral_a_string_witness :
  @JSON_parse sample_host (VStr "5") = Ok (VNum 5) /\
  @unravel sample_host (VStr "all") (holding "n=5") =
    (Ok (VArr [entry (VStr "n") "string" (VStr "5")]), holding "n=5").
Proof.
  split; [reflexivity|].
  exact (@unravel_all_keeps_numeral_a_string sample_host eq_refl).
Defined.

(** The earlier revision, whose object literal has no [type], does put the
    parsed value in. *)
Lemma legacy_unravel_parses `{Host} :
  JSON_parse (VStr "5") = Ok (VNum 5) ->
  Legacy.unravel (holding "n=5") =
    (Ok (VArr [VObj [("id", VStr "n"); ("value", VNum 5)]]), holding "n=5").
Proof.
  intros Hp.
  assert (E : Legacy.unravel_json (Legacy.all_entry "n=5") =
              Ok (VObj [("id", VStr "n"); ("value", VNum 5)])).
  { unfold Legacy.unravel_json, try_catch, obind.
    change (get (Legacy.all_entry "n=5") "value") with (Ok (VStr "5")).
    cbv iota beta. rewrite Hp. reflexivity. }
  unfold Legacy.unravel, bind, lift, ret.
  change (Legacy.all (holding "n=5"))
    with (Ok [Legacy.all_entry "n=5"], holding "n=5").
  cbn [Array_map obind]. now rewrite E.
Qed.

(** *** C7 *)

(** Mode ['json'] returns the decoded sequence. *)
Lemma unravel_json_mode `{Host} (st st' : Browser) (cookies : list Value) :
  all st = (Ok cookies, st') ->
  unravel (VStr "json") st = (Ok (VArr cookies), st').
Proof.
  intros Hall. now rewrite (unravel_by_mode "json" st st' cookies Hall).
Qed.

(** Modes ['none'], ['container'] and ['all'] do the same. *)
Lemma unravel_none_is_all `{Host} (st : Browser) :
  unravel (VStr "none") st = unravel (VStr "all") st /\
  unravel (VStr "container") st = unravel (VStr "all") st.
Proof.
  destruct (all_returns st) as (cookies & st' & Hall & _).
  now rewrite !(unravel_by_mode _ st st' cookies Hall).
Qed.

(** C7 (the code departs from it). Under mode ['none'] the container pass
    runs: over the content [c=x=1&y=2] the decoded sequence holds the
    Scalar entry [c], and [unravel('none')] returns it as a container. *)
Theorem unravel_none_runs_container_pass `{Host} :
  all (holding "c=x=1&y=2") =
    (Ok [entry (VStr "c") "string" (VStr "x=1&y=2")], holding "c=x=1&y=2") /\
  unravel (VStr "none") (holding "c=x=1&y=2") =
    (Ok (VArr [entry (VStr "c") "container"
                 (VArr [entry (VStr "x") "string" (VStr "1");
                        entry (VStr "y") "string" (VStr "2")])]),
     holding "c=x=1&y=2").
Proof.
  split; [reflexivity|].
  rewrite (unravel_by_mode "none" (holding "c=x=1&y=2") (holding "c=x=1&y=2")
             [scalar ("c", "x=1&y=2")] eq_refl).
  reflexivity.
Qed.

(** *** C6 *)

Lemma after_absent (c : ascii) (s : string) : count c s = 0 -> after c s = "".
Proof.
  induction s as [|a r IH]; simpl; [reflexivity|].
  destruct (Ascii.eqb a c); simpl; [discriminate|exact IH].
Qed.

(** The sub-cookie of a piece is the piece split on its first [=], the
    value trimmed; a piece without [=] is all id. *)
Lemma subcookie_split (segment : string) :
  subcookie segment = split_and_trimmed segment.
Proof.
  unfold subcookie, split_and_trimmed.
  destruct (Z.eqb_spec (indexOf "=" segment) (-1)) as [E|E]; simpl.
  - apply indexOf_absent in E.
    now rewrite before_absent, after_absent.
  - assert (count "=" segment <> 0) by (rewrite <- indexOf_absent; exact E).
    now rewrite hd_split, substring_present.
Qed.

Lemma two_pieces (segment : string) :
  (List.length (split "=" segment) =? 2)%nat = (count "=" segment =? 1)%nat.
Proof. now rewrite split_length. Qed.

Lemma indexOf_present (c : ascii) (s : string) :
  negb (indexOf c s =? -1)%Z = (1 <=? count c s)%nat.
Proof.
  destruct (Z.eqb_spec (indexOf c s) (-1)) as [E|E]; simpl.
  - apply indexOf_absent in E. now rewrite E.
  - assert (count c s <> 0) by (rewrite <- indexOf_absent; exact E).
    destruct (count c s); [congruence|reflexivity].
Qed.

Lemma list_sum_ones {A} (f : A -> nat) (l : list A) :
  forallb (fun x => f x =? 1)%nat l = true ->
  list_sum (List.map f l) = List.length l.
Proof.
  induction l as [|x r IH]; simpl; [reflexivity|].
  intros Hb. apply andb_true_iff in Hb as [Hx Hr].
  apply Nat.eqb_eq in Hx. rewrite Hx, IH by assumption. reflexivity.
Qed.

Lemma forallb_same {A} (f g : A -> bool) (l : list A) :
  (forall x, f x = g x) -> forallb f l = forallb g l.
Proof.
  intros E. induction l as [|x r IH]; simpl; [reflexivity|].
  now rewrite E, IH.
Qed.

(** One [=] in every piece puts an [=] in the whole. *)
Lemma one_equals_each (s : string) :
  forallb (fun segment => (count "=" segment =? 1)%nat) (split "&" s) = true ->
  (1 <=? count "=" s)%nat = true.
Proof.
  intros Hb. apply Nat.leb_le.
  rewrite (count_split "&" "=" s) by discriminate.
  rewrite (list_sum_ones (count "=") _ Hb), split_length. lia.
Qed.

(** The test of the second [map] is the qualification of the
    specification: the separate test for an [=] adds nothing. *)
Lemma container_test_qualifies (s : string) :
  negb (indexOf "=" s =? -1)%Z
  && negb (indexOf "&" s =? -1)%Z
  && forallb (fun i => (List.length (split "=" i) =? 2)%nat) (split "&" s)
  = qualifies s.
Proof.
  unfold qualifies. rewrite !indexOf_present.
  rewrite (forallb_same _ (fun segment => (count "=" segment =? 1)%nat))
    by (intros; apply two_pieces).
  destruct (forallb _ (split "&" s)) eqn:Hb.
  - rewrite (one_equals_each s Hb). reflexivity.
  - now rewrite !andb_false_r.
Qed.

(** C6 (amended). In the container pass, an entry holding the string [s]
    becomes a container exactly when [s] holds an [&] and every
    [&]-delimited segment holds exactly one [=]; its value is then the
    segments in order, each split on its first [=] into a Scalar sub-entry
    whose value is trimmed; otherwise the entry is returned as it is.  So
    [x=1&y=2] gives the sub-entries [x], ["1"] and [y], ["2"], and [x=1]
    stays Scalar. *)
Theorem container_pass_reclassifies :
  (forall (idv : Value) (t s : string),
     unravel_container (entry idv t (VStr s)) =
       Ok (if qualifies s
           then entry idv "container"
                      (VArr (List.map split_and_trimmed (split "&" s)))
           else entry idv t (VStr s)))
  /\ (forall H : Host,
        @unravel H (VStr "all") (holding "c=x=1&y=2") =
          (Ok (VArr [entry (VStr "c") "container"
                       (VArr [entry (VStr "x") "string" (VStr "1");
                              entry (VStr "y") "string" (VStr "2")])]),
           holding "c=x=1&y=2"))
  /\ (forall H : Host,
        @unravel H (VStr "all") (holding "c=x=1") =
          (Ok (VArr [entry (VStr "c") "string" (VStr "x=1")]), holding "c=x=1")).
Proof.
  split; [|split].
  - intros idv t s. unfold unravel_container, entry at 1, get.
    cbn [own String.eqb Ascii.eqb Bool.eqb obind].
    rewrite container_test_qualifies.
    destruct (qualifies s); [|reflexivity].
    rewrite (map_ext _ _ subcookie_split). reflexivity.
  - intros H.
    now rewrite (unravel_by_mode "all" (holding "c=x=1&y=2") (holding "c=x=1&y=2")
                   [scalar ("c", "x=1&y=2")] eq_refl).
  - intros H.
    now rewrite (unravel_by_mode "all" (holding "c=x=1") (holding "c=x=1")
                   [scalar ("c", "x=1")] eq_refl).
Qed.

(** C6, as stated, fails: the value [x= 1&y=2] qualifies, its first
    segment split on the first [=] has the value [" 1"], and the sub-entry
    the pass builds has the value ["1"]. *)
Lemma container_pass_trims_subvalues :
  qualifies "x= 1&y=2" = true /\
  List.map split_on_first_equals (split "&" "x= 1&y=2") =
    [entry (VStr "x") "string" (VStr " 1"); entry (VStr "y") "string" (VStr "2")] /\
  unravel_container (entry (VStr "c") "string" (VStr "x= 1&y=2")) =
    Ok (entry (VStr "c") "container"
          (VArr [entry (VStr "x") "string" (VStr "1");
                 entry (VStr "y") "string" (VStr "2")])) /\
  unravel_container (entry (VStr "c") "string" (VStr "x= 1&y=2")) <>
    Ok (entry (VStr "c") "container"
          (VArr (List.map split_on_first_equals (split "&" "x= 1&y=2")))).
Proof.
  repeat split. vm_compute. discriminate.
Qed.

End UnravelFacts.

(* ================================================================== *)
(** ** More about decoding *)

Module DecodeMore.
Import JsString Js Cookies Spec SpecRest JsStringFacts DecodeFacts.

Lemma all_entry_decoded (segment : string) :
  all_entry segment = scalar (decoded segment).
Proof.
  unfold all_entry, decoded, scalar. simpl. rewrite hd_split.
  destruct (Nat.eqb_spec (count "=" segment) 0) as [E|E].
  - now rewrite substring_absent.
  - now rewrite substring_present.
Qed.

(** Over a store that accepts cookies and is not blank, [all] gives, for
    each [;]-separated segment in order, the Scalar entry whose id is the
    trimmed text before the first [=] of the segment and whose value is the
    trimmed text after it: a later [=] stays in the value. *)
Theorem all_splits_on_first_equals (st : Browser) :
  cookieEnabled st = true ->
  trim (cookie st) <> "" ->
  all st = (Ok (List.map scalar (entries_of (cookie st))), st).
Proof.
  intros He Hb. rewrite all_decodes by assumption.
  unfold entries_of. rewrite map_map. do 2 f_equal.
  apply map_ext. apply all_entry_decoded.
Qed.

Lemma all_splits_on_first_equals_witness :
  all (holding " a = 1=2 ;b") =
    (Ok [scalar ("a", "1=2"); scalar ("b", "b")], holding " a = 1=2 ;b").
Proof.
  apply (all_splits_on_first_equals (holding " a = 1=2 ;b")).
  - reflexivity.
  - vm_compute. discriminate.
Defined.

(** The decoded sequence has one entry more than the content has [;]: a
    [;] at the end, or two in a row, give an entry of their own. *)
Theorem all_counts_separators (st : Browser) :
  cookieEnabled st = true ->
  trim (cookie st) <> "" ->
  exists cookies,
    all st = (Ok cookies, st) /\
    List.length cookies = S (count ";" (cookie st)).
Proof.
  intros He Hb. exists (List.map all_entry (split ";" (cookie st))).
  split; [now apply all_decodes|].
  now rewrite length_map, split_length.
Qed.

Lemma all_counts_separators_witness :
  exists cookies,
    all (holding "a=1;;b=2;") = (Ok cookies, holding "a=1;;b=2;") /\
    List.length cookies = 4.
Proof.
  apply (all_counts_separators (holding "a=1;;b=2;")).
  - reflexivity.
  - vm_compute. discriminate.
Defined.

(** A store that refuses cookies, or whose content is blank, decodes to the
    empty sequence whatever else it holds; the refusal is reported, the
    content is not touched. *)
Theorem all_of_nothing (st : Browser) :
  (cookieEnabled st = false ->
   all st = (Ok [], logged CookiesDisabled st))
  /\ (cookieEnabled st = true -> trim (cookie st) = "" ->
      all st = (Ok [], st)).
Proof.
  split.
  - intros He. unfold all, bind, navigator_cookieEnabled. now rewrite He.
  - apply all_blank.
Qed.

Lemma all_of_nothing_witness :
  all (mkBrowser false "a=1" []) = (Ok [], mkBrowser false "a=1" [CookiesDisabled])
  /\ all (holding "   ") = (Ok [], holding "   ").
Proof.
  split.
  - exact (proj1 (all_of_nothing (mkBrowser false "a=1" [])) eq_refl).
  - exact (proj2 (all_of_nothing (holding "   ")) eq_refl eq_refl).
Defined.

End DecodeMore.

(* ================================================================== *)
(** ** More about queries *)

Module QueryMore.
Import JsString Js Cookies CookiesRest Spec SpecRest JsStringFacts DecodeFacts
       QueryFacts.

Lemma filter_scalars (f : Value -> bool) (es : list (string * string)) :
  Array_filter (fun item => id <- get item "id" ;; Ok (f id))%outcome
               (List.map scalar es) =
    Ok (List.map scalar (List.filter (fun e => f (VStr (fst e))) es)).
Proof.
  induction es as [|[i v] r IH]; simpl; [reflexivity|].
  rewrite IH. simpl. now destruct (f (VStr i)).
Qed.

Lemma filter_none {A} (l : list A) : List.filter (fun _ => false) l = [].
Proof. induction l; simpl; auto. Qed.

Lemma first_of_answers `{Host} (query : Value) (es : list (string * string)) :
  (forall n, query <> VNum n) ->
  first_of (List.map scalar es) query =
    Ok (match List.filter (answers query) es with
        | [] => VNull
        | e :: _ => scalar e
        end).
Proof.
  intros Hq. unfold first_of.
  destruct query as [| |b|n|q|l|props|test];
    try (unfold answers; rewrite filter_none; reflexivity).
  - now destruct (Hq n).
  - rewrite (filter_scalars (fun id => is_string id q)). simpl.
    now destruct (List.filter _ es).
  - rewrite (filter_scalars (fun id => test (ToString id))). simpl.
    now destruct (List.filter _ es).
Qed.

Lemma find_of_answers `{Host} (query : Value) (es : list (string * string)) :
  (forall n, query <> VNum n) ->
  find_of (List.map scalar es) query =
    Ok (match List.filter (answers query) es with
        | [] => VNull
        | l => VArr (List.map scalar l)
        end).
Proof.
  intros Hq. unfold find_of.
  destruct query as [| |b|n|q|l|props|test];
    try (unfold answers; rewrite filter_none; reflexivity).
  - now destruct (Hq n).
  - rewrite (filter_scalars (fun id => is_string id q)). simpl.
    now destruct (List.filter _ es).
  - rewrite (filter_scalars (fun id => test (ToString id))). simpl.
    now destruct (List.filter _ es).
Qed.


Lemma first_by_id `{Host} (query : Value) (st st' : Browser)
  (es : list (string * string)) :
  (forall n, query <> VNum n) ->
  all st = (Ok (List.map scalar es), st') ->
  first query st =
    (Ok (match List.filter (answers query) es with
         | [] => VNull
         | e :: _ => scalar e
         end), st').
Proof.
  intros Hq Hall. unfold first, bind. rewrite Hall.
  destruct es as [|e r]; [reflexivity|].
  change (negb (List.length (List.map scalar (e :: r)) =? 0)%nat) with true.
  cbv iota. unfold lift. now rewrite first_of_answers.
Qed.

(** For a query that is no number: [find] returns the decoded entries whose
    id equals the string, or passes the regular expression, in their
    original order, and [first] returns the earliest of them; both return
    null when there is none, and for a query of any other kind. *)
Theorem first_and_find_by_id `{Host} (query : Value) (st st' : Browser)
  (es : list (string * string)) :
  (forall n, query <> VNum n) ->
  all st = (Ok (List.map scalar es), st') ->
  first query st =
    (Ok (match List.filter (answers query) es with
         | [] => VNull
         | e :: _ => scalar e
         end), st')
  /\ find query st =
    (Ok (match List.filter (answers query) es with
         | [] => VNull
         | l => VArr (List.map scalar l)
         end), st').
Proof.
  intros Hq Hall. split; [now apply first_by_id|].
  unfold find, bind. rewrite Hall.
  destruct es as [|e r]; [reflexivity|].
  change (negb (List.length (List.map scalar (e :: r)) =? 0)%nat) with true.
  cbv iota. unfold lift. now rewrite find_of_answers.
Qed.

Lemma first_and_find_by_id_witness :
  @first sample_host (VStr "a") (holding "a=1;b=2;a=3") =
    (Ok (scalar ("a", "1")), holding "a=1;b=2;a=3")
  /\ @find sample_host (VStr "a") (holding "a=1;b=2;a=3") =
    (Ok (VArr [scalar ("a", "1"); scalar ("a", "3")]), holding "a=1;b=2;a=3").
Proof.
  apply (@first_and_find_by_id sample_host (VStr "a") (holding "a=1;b=2;a=3")
           (holding "a=1;b=2;a=3") [("a", "1"); ("b", "2"); ("a", "3")]).
  - discriminate.
  - reflexivity.
Defined.




(** [has] answers a query that is no number with true exactly when the
    earliest decoded entry answering it has a value that is not empty: an
    entry stored with the empty value counts as absent, also when a later
    entry of the same id has a value. *)
Theorem has_looks_at_first_value `{Host} (query : Value) (st st' : Browser)
  (es : list (string * string)) :
  (forall n, query <> VNum n) ->
  all st = (Ok (List.map scalar es), st') ->
  has query st =
    (Ok (VBool (match List.filter (answers query) es with
                | [] => false
                | e :: _ => negb (snd e =? "")
                end)), st').
Proof.
  intros Hq Hall.
  pose proof (first_by_id query st st' es Hq Hall) as Hf.
  unfold has. unfold bind at 1. rewrite Hf.
  destruct (List.filter (answers query) es) as [|[i v] l]; [reflexivity|].
  unfold bind, lift, ret. simpl. now destruct (v =? "").
Qed.

Lemma has_looks_at_first_value_witness :
  @has sample_host (VStr "a") (holding "a=;b=2;a=3") =
    (Ok (VBool false), holding "a=;b=2;a=3")
  /\ @has sample_host (VStr "b") (holding "a=;b=2;a=3") =
    (Ok (VBool true), holding "a=;b=2;a=3").
Proof.
  split.
  - apply (@has_looks_at_first_value sample_host (VStr "a") (holding "a=;b=2;a=3")
             (holding "a=;b=2;a=3") [("a", ""); ("b", "2"); ("a", "3")]).
    + discriminate.
    + reflexivity.
  - apply (@has_looks_at_first_value sample_host (VStr "b") (holding "a=;b=2;a=3")
             (holding "a=;b=2;a=3") [("a", ""); ("b", "2"); ("a", "3")]).
    + discriminate.
    + reflexivity.
Defined.

(** When nothing is decoded (the store refuses cookies, or its content is
    blank) every query finds nothing: [first] and [find] return null and
    [has] returns false. *)
Theorem queries_over_nothing `{Host} (query : Value) (st st' : Browser) :
  all st = (Ok [], st') ->
  first query st = (Ok VNull, st') /\
  find query st = (Ok VNull, st') /\
  has query st = (Ok (VBool false), st').
Proof.
  intros Hall.
  assert (Hf : first query st = (Ok VNull, st'))
    by (unfold first, bind; now rewrite Hall).
  split; [exact Hf|split].
  - unfold find, bind. now rewrite Hall.
  - unfold has. unfold bind at 1. now rewrite Hf.
Qed.

Lemma queries_over_nothing_witness :
  @first sample_host (VNum 0) (mkBrowser false "a=1" []) =
    (Ok VNull, mkBrowser false "a=1" [CookiesDisabled]) /\
  @find sample_host (VNum 0) (mkBrowser false "a=1" []) =
    (Ok VNull, mkBrowser false "a=1" [CookiesDisabled]) /\
  @has sample_host (VNum 0) (mkBrowser false "a=1" []) =
    (Ok (VBool false), mkBrowser false "a=1" [CookiesDisabled]).
Proof.
  exact (@queries_over_nothing sample_host (VNum 0) (mkBrowser false "a=1" [])
           (mkBrowser false "a=1" [CookiesDisabled]) eq_refl).
Defined.

(** [firstIn] and [findIn] look at the first element only and never at the
    query: they throw a TypeError when the first element of the array is
    null, and return null in every other case. *)
Theorem firstIn_findIn_outcome `{Host} (cookies query : Value) :
  firstIn cookies query =
    match cookies with
    | VArr (VNull :: _) => Thrown TypeError
    | _ => Ok VNull
    end
  /\ findIn cookies query =
    match cookies with
    | VArr (VNull :: _) => Thrown TypeError
    | _ => Ok VNull
    end.
Proof.
  unfold firstIn, findIn.
  destruct cookies as [| | | | |l|?|?]; try (split; reflexivity).
  destruct l as [|x r]; [split; reflexivity|].
  simpl elements. simpl Array_isArray.
  change (negb (List.length (x :: r) =? 0)%nat) with true.
  cbn [and_then].
  destruct x; try (split; reflexivity);
    rewrite every_entry_shape_callback by discriminate; split; reflexivity.
Qed.

End QueryMore.

(* ================================================================== *)
(** ** More about storing *)

Module StoreMore.
Import JsString Js Cookies CookiesRest Spec SpecRest JsStringFacts DecodeFacts
       StoreFacts.

Lemma split_after (c : ascii) (s t : string) :
  split c (s ++ String c t) = (split c s ++ split c t)%list.
Proof.
  induction s as [|a r IH]; simpl.
  - now rewrite Ascii.eqb_refl.
  - destruct (Ascii.eqb a c); simpl; [now rewrite IH|].
    rewrite IH. destruct (split c r) eqn:E; [|reflexivity].
    now destruct (split_nonempty c r).
Qed.

Lemma same_record (b : Browser) :
  mkBrowser (cookieEnabled b) (cookie b) (console b) = b.
Proof. now destruct b. Qed.

Lemma store_accepted `{Host} (item : Value) (e : string * string)
  (st : Browser) :
  scalar_fields item = Some e ->
  store item st =
    (Ok (VBool true),
     rewritten (if trim (cookie st) =? "" then cookie st ++ text e
                else cookie st ++ ";" ++ text e) st).
Proof.
  intros E. unfold store, bind, lift.
  rewrite (scalar_shape_accepts item e E), (id_equals_value_text item e E).
  reflexivity.
Qed.

Lemma store_rejected `{Host} (item : Value) (st : Browser) :
  item <> VNull -> scalar_fields item = None ->
  store item st = (Ok (VBool false), st).
Proof.
  intros Hn Hs. unfold store, bind, lift.
  now rewrite (scalar_shape_rejects item Hn Hs).
Qed.

(** [store] refuses an item that is not Scalar-shaped without a trace: it
    returns false and leaves content and console alone.  Given null it
    throws a TypeError, the store as it was. *)
Theorem store_refuses `{Host} (st : Browser) :
  (forall item, item <> VNull -> scalar_fields item = None ->
     store item st = (Ok (VBool false), st))
  /\ store VNull st = (Thrown TypeError, st).
Proof.
  split; [|reflexivity].
  intros item Hn Hs. now apply store_rejected.
Qed.

Lemma store_refuses_witness :
  @store sample_host (VObj [("id", VStr "a"); ("value", VNum 1)]) (holding "b=2") =
    (Ok (VBool false), holding "b=2")
  /\ @store sample_host (VStr "a=1") (holding "b=2") =
    (Ok (VBool false), holding "b=2").
Proof.
  destruct (@store_refuses sample_host (holding "b=2")) as [Hr _].
  split; apply Hr; (discriminate || reflexivity).
Defined.

(** On a content that is empty or not blank, [store(item)] and
    [storeArray([item])] do the same for a Scalar-shaped item: same return
    value, same content, same console. *)
Theorem store_is_storeArray_of_one `{Host} (item : Value) (st : Browser) :
  scalar_fields item <> None ->
  cookie st = "" \/ trim (cookie st) <> "" ->
  store item st = storeArray (VArr [item]) st.
Proof.
  intros Hs Hc.
  destruct (scalar_fields item) as [e|] eqn:E; [|congruence].
  rewrite (store_accepted item e st E).
  rewrite storeArray_accepted by (try discriminate; repeat constructor; congruence).
  unfold rewritten, appended, text_of. simpl List.map. rewrite E. simpl join.
  destruct Hc as [Hc|Hc].
  - rewrite Hc. reflexivity.
  - apply String.eqb_neq in Hc. now rewrite Hc.
Qed.

Lemma store_is_storeArray_of_one_witness :
  @store sample_host (scalar ("b", "2")) (holding "a=1") =
    @storeArray sample_host (VArr [scalar ("b", "2")]) (holding "a=1").
Proof.
  apply (@store_is_storeArray_of_one sample_host).
  - discriminate.
  - right. vm_compute. discriminate.
Defined.

Lemma storable_text (es : list (string * string)) :
  Forall storable es ->
  Forall (fun s => count ";" s = 0) (List.map text es) /\
  List.map all_entry (List.map text es) = List.map scalar es.
Proof.
  induction 1 as [|[i v] r (Hi1 & Hi2 & Hi3 & Hv1 & Hv2) _ [IH1 IH2]]; simpl.
  - split; [constructor|reflexivity].
  - simpl in *. split.
    + constructor; [|exact IH1]. unfold text; simpl.
      rewrite count_app. simpl. lia.
    + rewrite IH2. f_equal. now apply (all_entry_text (i, v)).
Qed.

(** Decoding a content to which texts were appended. *)
Lemma all_after_append (es : list (string * string)) (b b' : Browser)
  (cookies : list Value) :
  es <> [] ->
  Forall storable es ->
  cookie b = "" \/ trim (cookie b) <> "" ->
  cookieEnabled b = true ->
  all b = (Ok cookies, b) ->
  cookieEnabled b' = true ->
  cookie b' = appended (cookie b) (List.map text es) ->
  all b' = (Ok (cookies ++ List.map scalar es)%list, b').
Proof.
  intros Hne Hall Hc He Hb He' Hc'.
  destruct (storable_text es Hall) as [Hsemi Hmap].
  assert (Hj : count "=" (join ";" (List.map text es)) <> 0).
  { destruct es as [|e r]; [congruence|]. simpl List.map.
    pose proof (count_join_head "=" ";" (text e) (List.map text r)).
    pose proof (text_has_equals e). lia. }
  assert (Hm : List.map text es <> []) by (destruct es; [congruence|discriminate]).
  unfold appended in Hc'. destruct (List.map text es) as [|t ts] eqn:Et;
    [congruence|]. rewrite <- Et in *. clear Et t ts.
  destruct Hc as [Hc|Hc].
  - rewrite Hc in Hc'. simpl in Hc'.
    rewrite (all_blank b He) in Hb by (now rewrite Hc).
    injection Hb as <-.
    rewrite (all_decodes b' He') by
      (rewrite Hc'; apply (trim_not_blank _ "="); [reflexivity|exact Hj]).
    rewrite Hc', split_join, Hmap by assumption. reflexivity.
  - rewrite (all_decodes b He Hc) in Hb. injection Hb as <-.
    apply String.eqb_neq in Hc. rewrite Hc in Hc'.
    rewrite (all_decodes b' He') by
      (rewrite Hc'; apply (trim_not_blank _ "="); [reflexivity|];
       rewrite !count_app; lia).
    rewrite Hc'. change (";" ++ join ";" (List.map text es))
      with (String ";" (join ";" (List.map text es))).
    rewrite split_after, split_join, map_app, Hmap by assumption.
    reflexivity.
Qed.

(** [storeArray] keeps what the store holds and adds the batch at the end:
    over a store that accepts cookies, with a content that is empty or not
    blank, decoding after the call gives the entries decoded before it
    followed by the entries of the batch, when these have no [;] or [=] in
    the id, no [;] in the value and no white space around either. *)
Theorem storeArray_extends_decoded `{Host} (es : list (string * string))
  (st : Browser) (cookies : list Value) :
  es <> [] ->
  Forall storable es ->
  cookieEnabled st = true ->
  cookie st = "" \/ trim (cookie st) <> "" ->
  all st = (Ok cookies, st) ->
  exists st1,
    storeArray (VArr (List.map scalar es)) st = (Ok (VBool true), st1) /\
    all st1 = (Ok (cookies ++ List.map scalar es)%list, st1).
Proof.
  intros Hne Hall He Hc Hb.
  assert (Hm : List.map scalar es <> [])
    by (destruct es; [congruence|discriminate]).
  rewrite (storeArray_accepted (List.map scalar es) st Hm (scalar_is_scalar es)).
  eexists. split; [reflexivity|].
  apply (all_after_append es st); try assumption; try reflexivity.
  simpl. now rewrite text_of_scalar.
Qed.

Lemma storeArray_extends_decoded_witness :
  exists st1,
    @storeArray sample_host (VArr (List.map scalar [("b", "x=y"); ("c c", "")]))
      (holding "a=1") = (Ok (VBool true), st1) /\
    all st1 = (Ok ([scalar ("a", "1")]
                   ++ List.map scalar [("b", "x=y"); ("c c", "")])%list, st1).
Proof.
  apply (@storeArray_extends_decoded sample_host).
  - discriminate.
  - repeat constructor.
  - reflexivity.
  - right. vm_compute. discriminate.
  - reflexivity.
Defined.

(** [store] does the same with one entry. *)
Theorem store_extends_decoded `{Host} (e : string * string) (st : Browser)
  (cookies : list Value) :
  storable e ->
  cookieEnabled st = true ->
  cookie st = "" \/ trim (cookie st) <> "" ->
  all st = (Ok cookies, st) ->
  exists st1,
    store (scalar e) st = (Ok (VBool true), st1) /\
    all st1 = (Ok (cookies ++ [scalar e])%list, st1).
Proof.
  intros Hs He Hc Hb.
  rewrite (store_accepted (scalar e) e st) by (now destruct e).
  eexists. split; [reflexivity|].
  apply (all_after_append [e] st); try assumption; try reflexivity.
  - discriminate.
  - now constructor.
  - unfold rewritten, appended. simpl.
    destruct Hc as [Hc|Hc].
    + now rewrite Hc.
    + apply String.eqb_neq in Hc. now rewrite Hc.
Qed.

Lemma store_extends_decoded_witness :
  exists st1,
    @store sample_host (scalar ("b", "2")) (holding "a=1") = (Ok (VBool true), st1) /\
    all st1 = (Ok ([scalar ("a", "1")] ++ [scalar ("b", "2")])%list, st1).
Proof.
  apply (@store_extends_decoded sample_host).
  - repeat constructor.
  - reflexivity.
  - right. vm_compute. discriminate.
  - reflexivity.
Defined.

(** *** [storeAsContainer] *)

(** [storeAsContainer] writes all or nothing.  For an item with a string id
    and a non-empty array of Scalar-shaped sub-entries it returns true and
    writes the old content followed directly by [id=], then the sub-entries
    as [subid=subvalue] joined by [&].  For an empty array, and for an
    array with an element that is not Scalar-shaped (the first such not
    null), it returns false and leaves content and console alone. *)
Theorem storeAsContainer_all_or_nothing `{Host}
  (props : list (string * Value)) (i : string) (st : Browser) :
  own "id" props = Some (VStr i) ->
  (forall subs,
     own "value" props = Some (VArr subs) ->
     subs <> [] ->
     Forall (fun sub => scalar_fields sub <> None) subs ->
     storeAsContainer (VObj props) st =
       (Ok (VBool true),
        rewritten (cookie st ++ i ++ "=" ++ join "&" (List.map text_of subs)) st))
  /\ (own "value" props = Some (VArr []) ->
      storeAsContainer (VObj props) st = (Ok (VBool false), st))
  /\ (forall good bad rest,
        own "value" props = Some (VArr (good ++ bad :: rest)) ->
        Forall (fun sub => scalar_fields sub <> None) good ->
        bad <> VNull -> scalar_fields bad = None ->
        storeAsContainer (VObj props) st = (Ok (VBool false), st)).
Proof.
  intros Hi. split; [|split].
  - intros subs Hv Hne Hall. now apply storeAsContainer_writes.
  - intros Hv. unfold storeAsContainer, bind, lift, Object_hasOwn, get.
    rewrite Hi, Hv. reflexivity.
  - intros good bad rest Hv Hall Hn Hbad.
    unfold storeAsContainer, bind, lift, Object_hasOwn, get.
    rewrite Hi, Hv. cbn [obind]. simpl typeof. simpl Array_isArray.
    simpl elements.
    rewrite (every_scalar_rejects good bad rest Hall Hn Hbad).
    destruct good; reflexivity.
Qed.

Lemma storeAsContainer_all_or_nothing_witness :
  @storeAsContainer sample_host
     (VObj [("id", VStr "c"); ("value", VArr [scalar ("x", "1"); scalar ("y", "2")])])
     (holding "") = (Ok (VBool true), holding "c=x=1&y=2")
  /\ @storeAsContainer sample_host
       (VObj [("id", VStr "c"); ("value", VArr [])]) (holding "a=1") =
     (Ok (VBool false), holding "a=1")
  /\ @storeAsContainer sample_host
       (VObj [("id", VStr "c"); ("value", VArr [scalar ("x", "1"); VStr "y=2"])])
       (holding "a=1") =
     (Ok (VBool false), holding "a=1").
Proof.
  split; [|split].
  - apply (proj1 (@storeAsContainer_all_or_nothing sample_host
             [("id", VStr "c"); ("value", VArr [scalar ("x", "1"); scalar ("y", "2")])]
             "c" (holding "") eq_refl)
             [scalar ("x", "1"); scalar ("y", "2")]).
    + reflexivity.
    + discriminate.
    + repeat constructor; discriminate.
  - apply (proj1 (proj2 (@storeAsContainer_all_or_nothing sample_host
             [("id", VStr "c"); ("value", VArr [])] "c" (holding "a=1") eq_refl))).
    reflexivity.
  - apply (proj2 (proj2 (@storeAsContainer_all_or_nothing sample_host
             [("id", VStr "c"); ("value", VArr [scalar ("x", "1"); VStr "y=2"])]
             "c" (holding "a=1") eq_refl))
             [scalar ("x", "1")] (VStr "y=2") []).
    + reflexivity.
    + repeat constructor; discriminate.
    + discriminate.
    + reflexivity.
Defined.

(** *** [storeArrayAsJSON] *)

Lemma json_item_shape_decides (item : Value) :
  item <> VNull ->
  json_item_shape item = Ok true /\ json_item item
  \/ json_item_shape item = Ok false /\ ~ json_item item.
Proof.
  intros Hn.
  assert (Hno : forall v, (forall props, v <> VObj props) -> ~ json_item v)
    by (intros v Hv (props & _ & _ & -> & _); now apply (Hv props)).
  destruct item as [| |b|n|s|l|props|t];
    try (right; split; [reflexivity|apply Hno; discriminate]);
    [congruence|].
  unfold json_item_shape, Object_hasOwn, get. simpl typeof.
  cbn [and_then String.eqb Ascii.eqb Bool.eqb].
  destruct (own "id" props) as [vi|] eqn:Ei.
  2:{ right. split; [reflexivity|].
      intros (p & i & v & [= <-] & Hi & _). congruence. }
  destruct (own "value" props) as [vv|] eqn:Ev.
  2:{ right. split; [destruct vi; reflexivity|].
      intros (p & i & v & [= <-] & _ & Hv & _). congruence. }
  destruct vi as [| |b|n|i|l|p|t];
    try (right; split; [reflexivity|];
         intros (p' & i' & v' & [= <-] & Hi & _); congruence).
  destruct vv as [| |b|n|v|l|p|t];
    try (right; split; [reflexivity|];
         intros (p' & i' & v' & [= <-] & _ & Hv & [Ht|Ht]);
         rewrite Ev in Hv; injection Hv as <-; discriminate);
    left; (split; [reflexivity|]);
    eexists props, i, _; repeat split; eauto.
Qed.

Lemma every_json_rejects (good : list Value) (bad : Value) (rest : list Value) :
  Forall json_item good -> bad <> VNull -> ~ json_item bad ->
  Array_every json_item_shape_callback (good ++ bad :: rest) = Ok false.
Proof.
  intros Hall Hn Hbad.
  induction Hall as [|item r Hi _ IH]; simpl.
  - unfold json_item_shape_callback at 1.
    destruct (json_item_shape_decides bad Hn) as [[_ Hj]|[-> _]];
      [contradiction|reflexivity].
  - unfold json_item_shape_callback at 1.
    rewrite (json_item_shape_accepts item Hi). simpl. exact IH.
Qed.

(** [storeArrayAsJSON] answers true to a batch it does not take: to a value
    that is no array, to the empty array and to an array with an item that
    is not of the accepted shape (the first such not null) it returns true,
    writes nothing and reports nothing, both counts being 0. *)
Theorem storeArrayAsJSON_true_on_refusal `{Host} (st : Browser) :
  (forall items, Array_isArray items = false ->
     storeArrayAsJSON items st = (Ok (VBool true), st))
  /\ storeArrayAsJSON (VArr []) st = (Ok (VBool true), st)
  /\ (forall good bad rest,
        Forall json_item good -> bad <> VNull -> ~ json_item bad ->
        storeArrayAsJSON (VArr (good ++ bad :: rest)) st = (Ok (VBool true), st)).
Proof.
  split; [|split].
  - intros items Ha. unfold storeArrayAsJSON, bind, lift. rewrite Ha.
    destruct (typeof items =? "object"); reflexivity.
  - reflexivity.
  - intros good bad rest Hall Hn Hbad.
    unfold storeArrayAsJSON, bind, lift. simpl typeof. simpl Array_isArray.
    simpl elements. rewrite (every_json_rejects good bad rest Hall Hn Hbad).
    destruct good; reflexivity.
Qed.

Lemma storeArrayAsJSON_true_on_refusal_witness :
  @storeArrayAsJSON sample_host (VStr "a=1") (holding "b=2") =
    (Ok (VBool true), holding "b=2")
  /\ @storeArrayAsJSON sample_host
       (VArr [VObj [("id", VStr "a"); ("value", VStr "1")]; VObj [("id", VStr "c")]])
       (holding "b=2") = (Ok (VBool true), holding "b=2").
Proof.
  destruct (@storeArrayAsJSON_true_on_refusal sample_host (holding "b=2"))
    as (Hno & _ & Hbad).
  split.
  - apply Hno. reflexivity.
  - apply (Hbad [VObj [("id", VStr "a"); ("value", VStr "1")]]
                (VObj [("id", VStr "c")]) []).
    + repeat constructor.
      exists [("id", VStr "a"); ("value", VStr "1")], "a", (VStr "1").
      repeat split. now right.
    + discriminate.
    + intros (p & i & v & [= <-] & _ & Hv & _). discriminate.
Defined.

(** One round of the loop: the count goes up when the value handed to
    [store] is a string, a throwing [JSON.stringify] is reported, and only
    the content changes besides. *)
Lemma storeArrayAsJSON_step_summary `{Host} (item : Value) (n index : nat)
  (b : Browser) :
  json_item item ->
  exists content,
    storeArrayAsJSON_step n index item b =
      (Ok (if hands_a_string item then n + 1 else n),
       mkBrowser (cookieEnabled b) content
                 (console b ++ if stringify_throws item
                               then [StringifyFailed index] else [])).
Proof.
  intros (props & i & v & -> & Hi & Hv & _).
  unfold storeArrayAsJSON_step, hands_a_string, stringified, stringify_throws, get.
  rewrite Hi, Hv. cbn [obind]. unfold bind, lift, ret.
  destruct (JSON_stringify v) as [s|e].
  - rewrite app_nil_r.
    destruct s as [| |x|x|s|x|x|x];
      try (rewrite store_rejected by (discriminate || reflexivity);
           exists (cookie b); rewrite same_record; reflexivity).
    rewrite (store_accepted (VObj [("id", VStr i); ("value", VStr s)])
               (i, s) b eq_refl).
    eexists. reflexivity.
  - destruct v as [| |x|x|s|x|x|x];
      try (rewrite store_rejected by (discriminate || reflexivity);
           eexists; reflexivity).
    rewrite (store_accepted (VObj [("id", VStr i); ("value", VStr s)])
               (i, s) _ eq_refl).
    eexists. reflexivity.
Qed.

Lemma storeArrayAsJSON_loop_summary `{Host} (items : list Value)
  (n index : nat) (b : Browser) :
  Forall json_item items ->
  exists content,
    Array_forEach storeArrayAsJSON_step index items n b =
      (Ok (n + List.length (List.filter hands_a_string items)),
       mkBrowser (cookieEnabled b) content
                 (console b ++ stringify_failures index items)).
Proof.
  intros Hall. revert n index b.
  induction Hall as [|item r Hi _ IH]; intros n index b.
  - exists (cookie b). simpl. unfold ret.
    now rewrite Nat.add_0_r, app_nil_r, same_record.
  - destruct (storeArrayAsJSON_step_summary item n index b Hi) as [c1 E1].
    simpl Array_forEach. unfold bind. rewrite E1.
    destruct (IH (if hands_a_string item then n + 1 else n) (S index)
                 (mkBrowser (cookieEnabled b) c1
                    (console b ++ (if stringify_throws item
                                   then [StringifyFailed index] else []))))
      as [c2 E2].
    rewrite E2. exists c2. simpl. rewrite <- app_assoc.
    destruct (hands_a_string item); simpl List.length;
      [replace (n + 1 + List.length (List.filter hands_a_string r))
         with (n + S (List.length (List.filter hands_a_string r))) by lia|];
      reflexivity.
Qed.

(** What a call of [storeArrayAsJSON] on an accepted batch comes to. *)
Lemma storeArrayAsJSON_summary `{Host} (items : list Value) (st : Browser) :
  items <> [] ->
  Forall json_item items ->
  let stored := List.length (List.filter hands_a_string items) in
  storeArrayAsJSON (VArr items) st =
    (Ok (VBool (List.length items =? stored)%nat),
     mkBrowser (cookieEnabled st) (cookie st)
               (console st ++ stringify_failures 0 items
                ++ if (List.length items =? stored)%nat then []
                   else [CountMismatch (List.length items) stored])).
Proof.
  intros Hne Hall stored.
  unfold storeArrayAsJSON. unfold bind at 1, lift at 1.
  simpl typeof. simpl Array_isArray. simpl elements.
  rewrite (every_json_accepts items Hall).
  replace (0 <? List.length items)%nat with true
    by (destruct items; [congruence|reflexivity]).
  cbn [and_then String.eqb Ascii.eqb Bool.eqb].
  unfold bind at 1. unfold bind at 1, document_cookie at 1.
  unfold bind at 1.
  destruct (storeArrayAsJSON_loop_summary items 0 0 st Hall) as [c E].
  rewrite E. unfold bind, set_document_cookie, ret, console_error.
  subst stored. simpl.
  destruct (List.length items =? List.length (List.filter hands_a_string items))%nat;
    simpl.
  - now rewrite app_nil_r.
  - now rewrite <- app_assoc.
Qed.

(** When [JSON.stringify] returns a string for the value of every item of
    an accepted batch, [storeArrayAsJSON] returns true and leaves the
    browser exactly as it was: nothing of the batch is in the store. *)
Theorem storeArrayAsJSON_stores_nothing `{Host} (items : list Value)
  (st : Browser) :
  items <> [] ->
  Forall json_item items ->
  Forall (fun item => exists v s,
            get item "value" = Ok v /\ JSON_stringify v = Ok (VStr s)) items ->
  storeArrayAsJSON (VArr items) st = (Ok (VBool true), st).
Proof.
  intros Hne Hall Hstr.
  rewrite (storeArrayAsJSON_summary items st Hne Hall).
  assert (Hf : List.filter hands_a_string items = items
               /\ stringify_failures 0 items = []).
  { generalize 0 as index. clear Hne Hall.
    induction Hstr as [|item r (v & s & Hv & Hs) _ IH]; intros index; simpl.
    - now split.
    - destruct (IH (S index)) as [IH1 IH2].
      rewrite IH1, IH2.
      unfold hands_a_string, stringified, stringify_throws.
      rewrite Hv, Hs. now split. }
  destruct Hf as [-> ->]. rewrite Nat.eqb_refl. simpl.
  now rewrite app_nil_r, same_record.
Qed.

Lemma storeArrayAsJSON_stores_nothing_witness :
  @storeArrayAsJSON sample_host
     (VArr [VObj [("id", VStr "n"); ("value", VStr "x")];
            VObj [("id", VStr "m"); ("value", VNull)]])
     (holding "a=1") = (Ok (VBool true), holding "a=1").
Proof.
  apply (@storeArrayAsJSON_stores_nothing sample_host).
  - discriminate.
  - repeat constructor.
    + exists [("id", VStr "n"); ("value", VStr "x")], "n", (VStr "x").
      repeat split. now right.
    + exists [("id", VStr "m"); ("value", VNull)], "m", VNull.
      repeat split. now left.
  - repeat constructor.
    + exists (VStr "x"), (quoted "x"). split; reflexivity.
    + exists VNull, "null". split; reflexivity.
Defined.

End StoreMore.

(* ================================================================== *)
(** ** Trimming and concatenation *)

Module TrimFacts.
Import JsString Spec SpecRest JsStringFacts.

Lemma trimStart_shorter (s : string) :
  String.length (trimStart s) <= String.length s.
Proof.
  induction s as [|c r IH]; simpl; [lia|].
  destruct (is_whitespace c); simpl; lia.
Qed.

Lemma trimEnd_shorter (s : string) :
  String.length (trimEnd s) <= String.length s.
Proof.
  induction s as [|c r IH]; simpl; [lia|].
  destruct (trimEnd r); [destruct (is_whitespace c)|]; simpl in *; lia.
Qed.

Lemma trimStart_same_length (s : string) :
  String.length (trimStart s) = String.length s -> trimStart s = s.
Proof.
  destruct s as [|c r]; simpl; [reflexivity|].
  destruct (is_whitespace c); [|reflexivity].
  pose proof (trimStart_shorter r). lia.
Qed.

Lemma trimmed_ends (s : string) :
  trimmed s -> trimStart s = s /\ trimEnd s = s.
Proof.
  unfold trimmed, trim. intros Ht.
  assert (Hs : trimStart s = s).
  { apply trimStart_same_length.
    pose proof (trimStart_shorter s).
    pose proof (trimEnd_shorter (trimStart s)).
    rewrite Ht in *. lia. }
  split; [exact Hs|]. now rewrite Hs in Ht.
Qed.

Lemma trimStart_app (a b : string) :
  a <> "" -> trimStart a = a -> trimStart (a ++ b) = a ++ b.
Proof.
  destruct a as [|c r]; [congruence|]. simpl. intros _.
  destruct (is_whitespace c); [|reflexivity].
  intros E. pose proof (trimStart_shorter r) as Hl.
  rewrite E in Hl. simpl in Hl. lia.
Qed.

Lemma trimEnd_app (a b : string) :
  b <> "" -> trimEnd b = b -> trimEnd (a ++ b) = a ++ b.
Proof.
  intros Hb Eb. induction a as [|c r IH]; simpl; [exact Eb|].
  rewrite IH. destruct (r ++ b) eqn:E; [|reflexivity].
  destruct r; simpl in E; [congruence|discriminate].
Qed.

Lemma trimmed_app (a b : string) :
  a <> "" -> b <> "" -> trimmed a -> trimmed b -> trimmed (a ++ b).
Proof.
  intros Ha Hb Ta Tb.
  destruct (trimmed_ends a Ta) as [Sa _].
  destruct (trimmed_ends b Tb) as [_ Eb].
  unfold trimmed, trim.
  now rewrite trimStart_app, trimEnd_app.
Qed.

Lemma app_not_empty (a b : string) : b <> "" -> a ++ b <> "".
Proof. destruct a; simpl; [auto|discriminate]. Qed.

Lemma trimmed_after_separator (c : ascii) (s : string) :
  is_whitespace c = false -> trimmed s -> trimmed (String c s).
Proof.
  intros Hc Ts.
  assert (T1 : trimmed (String c ""))
    by (unfold trimmed, trim; simpl; rewrite Hc; simpl; now rewrite Hc).
  destruct s as [|x r]; [exact T1|].
  apply (trimmed_app (String c "") (String x r)); try discriminate; assumption.
Qed.

Lemma trimmed_text (e : string * string) :
  trimmed (fst e) -> trimmed (snd e) -> trimmed (text e).
Proof.
  destruct e as [i v]; unfold text; simpl. intros Ti Tv.
  pose proof (trimmed_after_separator "=" v eq_refl Tv) as Hx.
  destruct i as [|c r]; [exact Hx|].
  apply trimmed_app; try discriminate; assumption.
Qed.

Lemma join_not_empty (sep t : string) (r : list string) :
  t <> "" -> join sep (t :: r) <> "".
Proof.
  intros Ht. destruct r as [|t' r']; [exact Ht|].
  change (join sep (t :: t' :: r')) with (t ++ sep ++ join sep (t' :: r')).
  destruct t; [congruence|discriminate].
Qed.

Lemma trimmed_join (texts : list string) :
  Forall (fun t => trimmed t /\ t <> "") texts ->
  trimmed (join "&" texts).
Proof.
  induction 1 as [|t r [Tt Nt] Hr IH]; [reflexivity|].
  destruct r as [|t' r']; [exact Tt|].
  change (join "&" (t :: t' :: r')) with (t ++ String "&" (join "&" (t' :: r'))).
  apply trimmed_app; try assumption; try discriminate.
  apply trimmed_after_separator; [reflexivity|exact IH].
Qed.

Lemma count_join (c : ascii) (sep : string) (texts : list string) :
  count c sep = 0 ->
  Forall (fun t => count c t = 0) texts ->
  count c (join sep texts) = 0.
Proof.
  intros Hs. induction 1 as [|t r Ht _ IH]; [reflexivity|].
  destruct r as [|t' r']; [exact Ht|].
  change (join sep (t :: t' :: r')) with (t ++ sep ++ join sep (t' :: r')).
  rewrite !count_app. lia.
Qed.

End TrimFacts.

(* ================================================================== *)
(** ** More about unravelling *)

Module UnravelMore.
Import JsString Js Cookies Spec SpecRest JsStringFacts DecodeFacts StoreFacts
       UnravelFacts TrimFacts.

Lemma unravel_container_scalar (e : string * string) :
  unravel_container (scalar e) = Ok (unravelled e).
Proof.
  destruct e as [i v]. unfold unravel_container, unravelled, scalar, entry, get.
  cbn [own String.eqb Ascii.eqb Bool.eqb obind fst snd].
  rewrite container_test_qualifies.
  destruct (qualifies v); [|reflexivity].
  rewrite (map_ext _ _ subcookie_split). reflexivity.
Qed.

Lemma map_unravel_container (es : list (string * string)) :
  Array_map unravel_container (List.map scalar es) =
    Ok (List.map unravelled es).
Proof.
  induction es as [|e r IH]; simpl; [reflexivity|].
  now rewrite unravel_container_scalar, IH.
Qed.

(** [unravel] for a [cookieType] that passes the first test. *)
Lemma unravel_by_cookieType `{Host} (ct : Value) (st st' : Browser)
  (cookies : list Value) :
  all st = (Ok cookies, st') ->
  ct <> VUndefined ->
  (typeof ct =? "string") || Array_includes [0%Z] ct = true ->
  unravel ct st =
    if negb (is_string ct "string") && negb (is_string ct "json")
    then (obind (Array_map unravel_container cookies) (fun l => Ok (VArr l)), st')
    else (Ok (VArr cookies), st').
Proof.
  intros Hall Hu Hg. unfold unravel.
  replace (match ct with VUndefined => VStr "all" | _ => ct end) with ct
    by (destruct ct; congruence).
  unfold bind at 1. rewrite Hall.
  replace (negb (typeof ct =? "string")
           && negb (Array_includes [Z.lor (Z.lor (Z.lor 0 0) 0) 0] ct))
    with false
    by (change (Z.lor (Z.lor (Z.lor 0 0) 0) 0) with 0%Z;
        destruct (typeof ct =? "string"), (Array_includes [0%Z] ct);
        simpl in *; congruence).
  assert (E : forall b,
    (if negb (is_string ct "string") && negb (is_string ct "container")
     then lift (Array_map
                  (unravel_json
                     [("checkedCookies", VArr cookies); ("cookies", VArr cookies);
                      ("cookieType", ct)]) cookies)
     else ret cookies) b = (Ok cookies, b)).
  { intros b.
    destruct (negb (is_string ct "string") && negb (is_string ct "container")).
    - unfold lift. now rewrite map_unravel_json_unchanged.
    - reflexivity. }
  unfold bind at 1. rewrite E. unfold bind, lift, ret.
  destruct (negb (is_string ct "string") && negb (is_string ct "json"));
    [|reflexivity].
  destruct (Array_map unravel_container cookies); reflexivity.
Qed.

(** Which [cookieType] does what: ['string'] and ['json'] return the
    decoded sequence as it is; every other string, the number 0 and a
    missing argument do what ['all'] does. *)
Theorem unravel_cookieType_classes `{Host} (st st' : Browser)
  (cookies : list Value) :
  all st = (Ok cookies, st') ->
  unravel (VStr "string") st = (Ok (VArr cookies), st') /\
  unravel (VStr "json") st = (Ok (VArr cookies), st') /\
  (forall mode, mode <> "string" -> mode <> "json" ->
     unravel (VStr mode) st = unravel (VStr "all") st) /\
  unravel (VNum 0) st = unravel (VStr "all") st /\
  unravel VUndefined st = unravel (VStr "all") st.
Proof.
  intros Hall.
  split; [|split; [|split; [|split]]].
  - now rewrite (unravel_by_cookieType (VStr "string") st st' cookies Hall).
  - now rewrite (unravel_by_cookieType (VStr "json") st st' cookies Hall).
  - intros mode Hs Hj.
    rewrite (unravel_by_cookieType (VStr mode) st st' cookies Hall)
      by (discriminate || reflexivity).
    rewrite (unravel_by_cookieType (VStr "all") st st' cookies Hall)
      by (discriminate || reflexivity).
    apply String.eqb_neq in Hs, Hj. simpl. now rewrite Hs, Hj.
  - rewrite (unravel_by_cookieType (VNum 0) st st' cookies Hall)
      by (discriminate || reflexivity).
    now rewrite (unravel_by_cookieType (VStr "all") st st' cookies Hall)
      by (discriminate || reflexivity).
  - reflexivity.
Qed.

Lemma unravel_cookieType_classes_witness :
  @unravel sample_host (VStr "json") (holding "c=x=1&y=2") =
    (Ok (VArr [scalar ("c", "x=1&y=2")]), holding "c=x=1&y=2") /\
  @unravel sample_host (VStr "anything") (holding "c=x=1&y=2") =
    @unravel sample_host (VStr "all") (holding "c=x=1&y=2").
Proof.
  destruct (@unravel_cookieType_classes sample_host (holding "c=x=1&y=2")
              (holding "c=x=1&y=2") [scalar ("c", "x=1&y=2")] eq_refl)
    as (_ & Hj & Hm & _).
  split; [exact Hj|]. apply Hm; discriminate.
Defined.

(** A [cookieType] that is neither a string nor the number 0 (nor missing)
    is refused after the store has been read: [unravel] reports it and
    returns undefined, not an array. *)
Theorem unravel_refuses_cookieType `{Host} (ct : Value) (st st' : Browser)
  (cookies : list Value) :
  all st = (Ok cookies, st') ->
  ct <> VUndefined -> typeof ct <> "string" -> ct <> VNum 0 ->
  unravel ct st = (Ok VUndefined, logged BadCookieType st').
Proof.
  intros Hall Hu Hs Hz. unfold unravel.
  replace (match ct with VUndefined => VStr "all" | _ => ct end) with ct
    by (destruct ct; congruence).
  unfold bind at 1. rewrite Hall.
  apply String.eqb_neq in Hs. rewrite Hs.
  replace (Array_includes [Z.lor (Z.lor (Z.lor 0 0) 0) 0] ct) with false.
  - reflexivity.
  - destruct ct as [| |b|n|s|l|p|t]; try reflexivity.
    simpl. destruct (Z.eqb_spec n 0); [congruence|reflexivity].
Qed.

Lemma unravel_refuses_cookieType_witness :
  @unravel sample_host (VNum 1) (holding "a=1") =
    (Ok VUndefined, mkBrowser true "a=1" [BadCookieType])
  /\ @unravel sample_host VNull (holding "a=1") =
    (Ok VUndefined, mkBrowser true "a=1" [BadCookieType]).
Proof.
  split.
  - apply (@unravel_refuses_cookieType sample_host (VNum 1) (holding "a=1")
             (holding "a=1") [scalar ("a", "1")] eq_refl); discriminate.
  - apply (@unravel_refuses_cookieType sample_host VNull (holding "a=1")
             (holding "a=1") [scalar ("a", "1")] eq_refl); discriminate.
Defined.

(** Under every mode that runs the container pass, [unravel] treats each
    decoded entry on its own and in place: an entry whose value qualifies
    becomes a container of the same id, any other entry stays as decoded.
    The result has as many entries as the decoded sequence, in the same
    order, with the same ids. *)
Theorem unravel_entry_by_entry `{Host} (mode : string) (st st' : Browser)
  (es : list (string * string)) :
  all st = (Ok (List.map scalar es), st') ->
  mode <> "string" -> mode <> "json" ->
  unravel (VStr mode) st = (Ok (VArr (List.map unravelled es)), st').
Proof.
  intros Hall Hs Hj.
  rewrite (unravel_by_mode mode st st' (List.map scalar es) Hall).
  apply String.eqb_neq in Hs, Hj. rewrite Hs, Hj. simpl.
  now rewrite map_unravel_container.
Qed.

Lemma unravel_entry_by_entry_witness :
  @unravel sample_host (VStr "all") (holding "a=1;c=x=1&y=2;b=p&q") =
    (Ok (VArr [scalar ("a", "1");
               entry (VStr "c") "container"
                     (VArr [scalar ("x", "1"); scalar ("y", "2")]);
               scalar ("b", "p&q")]),
     holding "a=1;c=x=1&y=2;b=p&q").
Proof.
  apply (@unravel_entry_by_entry sample_host "all" (holding "a=1;c=x=1&y=2;b=p&q")
           (holding "a=1;c=x=1&y=2;b=p&q")
           [("a", "1"); ("c", "x=1&y=2"); ("b", "p&q")] eq_refl);
    discriminate.
Defined.

End UnravelMore.

(* ================================================================== *)
(** ** Containers, there and back *)

Module ContainerMore.
Import JsString Js Cookies Spec SpecRest JsStringFacts DecodeFacts StoreFacts
       UnravelFacts TrimFacts StoreMore UnravelMore.

Lemma plain_text (e : string * string) :
  plain (fst e) -> plain (snd e) ->
  count ";" (text e) = 0 /\ count "&" (text e) = 0 /\ count "=" (text e) = 1 /\
  trimmed (text e) /\ text e <> "" /\ split_and_trimmed (text e) = scalar e.
Proof.
  destruct e as [i v]. simpl.
  intros (Hi1 & Hi2 & Hi3 & Hi4) (Hv1 & Hv2 & Hv3 & Hv4).
  repeat split.
  - unfold text; simpl. rewrite count_app. simpl. lia.
  - unfold text; simpl. rewrite count_app. simpl. lia.
  - unfold text; simpl. rewrite count_app. simpl. lia.
  - now apply (trimmed_text (i, v)).
  - unfold text; simpl. apply app_not_empty. discriminate.
  - unfold split_and_trimmed, text, scalar; simpl.
    rewrite before_app, after_app by assumption. now rewrite Hv4.
Qed.

Lemma plain_texts (subs : list (string * string)) :
  Forall (fun e => plain (fst e) /\ plain (snd e)) subs ->
  Forall (fun t => count ";" t = 0) (List.map text subs) /\
  Forall (fun t => count "&" t = 0) (List.map text subs) /\
  Forall (fun t => trimmed t /\ t <> "") (List.map text subs) /\
  forallb (fun t => (count "=" t =? 1)%nat) (List.map text subs) = true /\
  List.map split_and_trimmed (List.map text subs) = List.map scalar subs.
Proof.
  induction 1 as [|e r [Hi Hv] _ (I1 & I2 & I3 & I4 & I5)]; simpl.
  - repeat split; constructor.
  - destruct (plain_text e Hi Hv) as (P1 & P2 & P3 & P4 & P5 & P6).
    repeat split; try (constructor; auto).
    + now rewrite P3, I4.
    + now rewrite P6, I5.
Qed.

(** Decoding and unravelling the content [id=packed] of an empty store. *)
Lemma unravel_one_packed `{Host} (i packed mode : string) (st : Browser) :
  cookieEnabled st = true -> cookie st = "" ->
  count ";" i = 0 -> count "=" i = 0 -> trimmed i ->
  count ";" packed = 0 -> trimmed packed ->
  mode <> "string" -> mode <> "json" ->
  unravel (VStr mode) (rewritten (i ++ "=" ++ packed) st) =
    (Ok (VArr [unravelled (i, packed)]), rewritten (i ++ "=" ++ packed) st).
Proof.
  intros He Hc Hi1 Hi2 Hi3 Hp1 Hp2 Hs Hj.
  assert (Hall : all (rewritten (i ++ "=" ++ packed) st) =
                 (Ok ([] ++ List.map scalar [(i, packed)])%list,
                  rewritten (i ++ "=" ++ packed) st)).
  { apply (all_after_append [(i, packed)] st); try assumption.
    - discriminate.
    - repeat constructor; assumption.
    - now left.
    - apply all_blank; [assumption|now rewrite Hc].
    - simpl. rewrite Hc. reflexivity. }
  rewrite (unravel_by_mode mode _ _ _ Hall).
  apply String.eqb_neq in Hs, Hj. rewrite Hs, Hj. simpl.
  now rewrite unravel_container_scalar.
Qed.

Lemma storeAsContainer_packs `{Host} (i : string)
  (subs : list (string * string)) (st : Browser) :
  subs <> [] -> cookie st = "" ->
  storeAsContainer (container i subs) st =
    (Ok (VBool true), rewritten (i ++ "=" ++ join "&" (List.map text subs)) st).
Proof.
  intros Hne Hc.
  assert (Hm : List.map scalar subs <> [])
    by (destruct subs; [congruence|discriminate]).
  unfold container, entry.
  rewrite (storeAsContainer_writes
             [("id", VStr i); ("type", VStr "container");
              ("value", VArr (List.map scalar subs))]
             i (List.map scalar subs) st eq_refl eq_refl Hm (scalar_is_scalar subs)).
  now rewrite text_of_scalar, Hc.
Qed.

(** A container of two or more sub-entries written by [storeAsContainer]
    into an empty store comes back from [unravel] as it went in: same id,
    type ['container'], the same sub-entries in order.  Ids and values hold
    no [;], [=] or [&] and no white space at either end (the container id
    may hold an [&]). *)
Theorem container_round_trip `{Host} (i mode : string)
  (subs : list (string * string)) (st : Browser) :
  cookieEnabled st = true -> cookie st = "" ->
  count ";" i = 0 -> count "=" i = 0 -> trimmed i ->
  2 <= List.length subs ->
  Forall (fun e => plain (fst e) /\ plain (snd e)) subs ->
  mode <> "string" -> mode <> "json" ->
  exists st1,
    storeAsContainer (container i subs) st = (Ok (VBool true), st1) /\
    unravel (VStr mode) st1 = (Ok (VArr [container i subs]), st1).
Proof.
  intros He Hc Hi1 Hi2 Hi3 Hlen Hsubs Hs Hj.
  destruct (plain_texts subs Hsubs) as (P1 & P2 & P3 & P4 & P5).
  assert (Hne : subs <> []) by (destruct subs; [simpl in Hlen; lia|discriminate]).
  assert (Hm : List.map text subs <> []) by (destruct subs; [congruence|discriminate]).
  rewrite (storeAsContainer_packs i subs st Hne Hc).
  eexists. split; [reflexivity|].
  rewrite unravel_one_packed; try assumption.
  - unfold unravelled, qualifies, container. simpl fst. simpl snd.
    rewrite split_join, P4, P5 by assumption.
    replace (1 <=? count "&" (join "&" (List.map text subs)))%nat with true;
      [reflexivity|].
    destruct subs as [|a [|b r]]; simpl in Hlen; try lia.
    change (List.map text (a :: b :: r)) with (text a :: text b :: List.map text r).
    change (join "&" (text a :: text b :: List.map text r))
      with (text a ++ String "&" (join "&" (text b :: List.map text r))).
    rewrite count_app.
    change (count "&" (String "&" (join "&" (text b :: List.map text r))))
      with (S (count "&" (join "&" (text b :: List.map text r)))).
    rewrite Nat.add_succ_r. reflexivity.
  - now apply count_join.
  - now apply trimmed_join.
Qed.

Lemma container_round_trip_witness :
  exists st1,
    @storeAsContainer sample_host
       (container "box" [("x", "1"); ("y", "two words"); ("z", "")]) (holding "") =
      (Ok (VBool true), st1) /\
    @unravel sample_host (VStr "all") st1 =
      (Ok (VArr [container "box" [("x", "1"); ("y", "two words"); ("z", "")]]), st1).
Proof.
  apply (@container_round_trip sample_host); try reflexivity; try discriminate.
  - simpl. lia.
  - repeat constructor.
Defined.

(** A container of one sub-entry does not come back: its packed text holds
    no [&], and [unravel] returns a Scalar entry whose value is the text
    [subid=subvalue]. *)
Theorem container_of_one_comes_back_scalar `{Host} (i mode : string)
  (e : string * string) (st : Browser) :
  cookieEnabled st = true -> cookie st = "" ->
  count ";" i = 0 -> count "=" i = 0 -> trimmed i ->
  plain (fst e) -> plain (snd e) ->
  mode <> "string" -> mode <> "json" ->
  exists st1,
    storeAsContainer (container i [e]) st = (Ok (VBool true), st1) /\
    unravel (VStr mode) st1 = (Ok (VArr [scalar (i, text e)]), st1).
Proof.
  intros He Hc Hi1 Hi2 Hi3 He1 He2 Hs Hj.
  destruct (plain_text e He1 He2) as (P1 & P2 & P3 & P4 & _).
  rewrite (storeAsContainer_packs i [e] st) by (discriminate || assumption).
  eexists. split; [reflexivity|].
  simpl List.map. simpl join.
  rewrite unravel_one_packed; try assumption.
  unfold unravelled, qualifies. simpl snd. now rewrite P2.
Qed.

Lemma container_of_one_comes_back_scalar_witness :
  exists st1,
    @storeAsContainer sample_host (container "box" [("x", "1")]) (holding "") =
      (Ok (VBool true), st1) /\
    @unravel sample_host (VStr "all") st1 =
      (Ok (VArr [scalar ("box", "x=1")]), st1).
Proof.
  apply (@container_of_one_comes_back_scalar sample_host "box" "all" ("x", "1"));
    try reflexivity; try discriminate; repeat constructor.
Defined.

End ContainerMore.

(* ================================================================== *)
(** ** The earlier revision *)

Module LegacyMore.
Import JsString Js Spec SpecRest JsStringFacts DecodeFacts DecodeMore.

Lemma legacy_all_entry (segment : string) :
  Legacy.all_entry segment = legacy_scalar (decoded segment).
Proof.
  pose proof (all_entry_decoded segment) as E.
  unfold Cookies.all_entry, scalar, Cookies.entry in E.
  unfold Legacy.all_entry, legacy_scalar. simpl in *.
  injection E as E1 E2. now rewrite E1, E2.
Qed.

Lemma legacy_unravel_json `{Host} (e : string * string) :
  Legacy.unravel_json (legacy_scalar e) = Ok (legacy_unravelled e).
Proof.
  unfold Legacy.unravel_json, legacy_unravelled, legacy_scalar, try_catch, get.
  simpl. now destruct (JSON_parse (VStr (snd e))).
Qed.

(** The [unravel] of the earlier revision, over a store that accepts
    cookies and is not blank: each decoded entry, in place, with its value
    replaced by what [JSON.parse] makes of it, and unchanged when
    [JSON.parse] throws. *)
Theorem legacy_unravel_parses_each `{Host} (st : Browser) :
  cookieEnabled st = true ->
  trim (cookie st) <> "" ->
  Legacy.unravel st =
    (Ok (VArr (List.map legacy_unravelled (entries_of (cookie st)))), st).
Proof.
  intros He Hb. apply String.eqb_neq in Hb.
  unfold Legacy.unravel. unfold bind at 1.
  unfold Legacy.all, bind, navigator_cookieEnabled, document_cookie, ret, lift.
  rewrite He. simpl. rewrite Hb.
  unfold entries_of.
  induction (split ";" (cookie st)) as [|segment r IH]; simpl; [reflexivity|].
  rewrite legacy_all_entry, legacy_unravel_json. simpl.
  destruct (Array_map Legacy.unravel_json (List.map Legacy.all_entry r));
    simpl in *; congruence.
Qed.

Lemma legacy_unravel_parses_each_witness :
  @Legacy.unravel sample_host (holding "n=5;s=x") =
    (Ok (VArr [VObj [("id", VStr "n"); ("value", VNum 5)];
               VObj [("id", VStr "s"); ("value", VStr "x")]]),
     holding "n=5;s=x").
Proof.
  apply (@legacy_unravel_parses_each sample_host (holding "n=5;s=x")).
  - reflexivity.
  - vm_compute. discriminate.
Defined.

End LegacyMore.
